(** * Host agent orchestrator: dispatch and verification pipeline

    A shallow embedding of [host_agent/agent.py] and
    [host_agent/verification_agent.py], and the properties of the
    natural-language specification checked against it.

    The Python code works on values decoded from JSON and relies on Python's
    dynamic behaviour (truthiness, [dict.get], iteration, exceptions caught
    by [try]/[except Exception]).  Part I models that fragment of the Python
    runtime, Part II embeds the two source files, Part III states the
    specification's words as definitions of their own, Part IV proves the
    properties. *)

From Stdlib Require Import String Ascii List ZArith Bool Lia.
From stdpp Require Import gmap strings list pretty.

Import ListNotations.
Local Open Scope string_scope.
Local Open Scope list_scope.

(** * Part I: the Python runtime fragment *)

Module Py.

(** A Python [float]: a finite double is a dyadic rational [m * 2^e]. *)
Inductive pyfloat : Type :=
| FDyadic (m e : Z)
| FInf (negative : bool)
| FNaN.

(** Values produced by [json.loads].  A [dict] keeps its insertion order,
    which [json.dumps] and iteration observe. *)
#[warnings="-register-all"]
Inductive json : Type :=
| JNull
| JBool (b : bool)
| JInt (z : Z)
| JFloat (f : pyfloat)
| JStr (s : string)
| JList (l : list json)
| JDict (d : list (string * json)).

(** Classes of the exceptions the modelled code can meet; all derive from
    [Exception]. *)
Inductive exn : Type :=
| AttributeError
| TypeError
| KeyError
| JSONDecodeError
| ValidationError
| External (msg : string).

(** A computation that returns a value or raises. *)
Definition py (A : Type) : Type := (exn + A)%type.

Definition ret {A} (a : A) : py A := inr a.
Definition raise {A} (e : exn) : py A := inl e.

Definition bind {A B} (m : py A) (k : A -> py B) : py B :=
  match m with
  | inl e => inl e
  | inr a => k a
  end.

(** [try: body except Exception as e: handler(e)] *)
Definition try_except {A} (body : py A) (handler : exn -> py A) : py A :=
  match body with
  | inl e => handler e
  | inr a => inr a
  end.

(** [for x in xs: acc = step(x, acc)] with a step that may raise. *)
Fixpoint for_each {A S} (xs : list A) (step : A -> S -> py S) (acc : S) : py S :=
  match xs with
  | [] => ret acc
  | x :: rest => bind (step x acc) (for_each rest step)
  end.

(** The newline character of ["\n"]. *)
Definition nl : string := String (ascii_of_nat 10) EmptyString.

(** [bool(v)] *)
Definition truthy (v : json) : bool :=
  match v with
  | JNull => false
  | JBool b => b
  | JInt z => negb (Z.eqb z 0)
  | JFloat (FDyadic m _) => negb (Z.eqb m 0)
  | JFloat _ => true
  | JStr s => negb (String.eqb s "")
  | JList l => match l with [] => false | _ => true end
  | JDict d => match d with [] => false | _ => true end
  end.

(** Lookup of a key in a [dict]. *)
Fixpoint dict_lookup (d : list (string * json)) (k : string) : option json :=
  match d with
  | [] => None
  | (k', v) :: rest => if String.eqb k' k then Some v else dict_lookup rest k
  end.

(** [d.get(k, default)] on a dict. *)
Definition dict_get_default (d : list (string * json)) (k : string) (dflt : json) : json :=
  match dict_lookup d k with
  | Some v => v
  | None => dflt
  end.

(** [d.get(k)] on a dict: [None] when the key is absent. *)
Definition dict_get (d : list (string * json)) (k : string) : json :=
  dict_get_default d k JNull.

(** [d[k] = v] on a dict: replaces in place, or appends a new key. *)
Fixpoint dict_set (d : list (string * json)) (k : string) (v : json) : list (string * json) :=
  match d with
  | [] => [(k, v)]
  | (k', v') :: rest =>
      if String.eqb k' k then (k', v) :: rest else (k', v') :: dict_set rest k v
  end.

(** [v.get(k, default)] on any value: only a dict has the method. *)
Definition get_default (v : json) (k : string) (dflt : json) : py json :=
  match v with
  | JDict d => ret (dict_get_default d k dflt)
  | _ => raise AttributeError
  end.

(** [v.get(k)] on any value. *)
Definition get (v : json) (k : string) : py json := get_default v k JNull.

(** [v[k]] with a string key. *)
Definition getitem (v : json) (k : string) : py json :=
  match v with
  | JDict d => match dict_lookup d k with
               | Some x => ret x
               | None => raise KeyError
               end
  | _ => raise TypeError
  end.

(** [v[k] = x] with a string key. *)
Definition setitem (v : json) (k : string) (x : json) : py json :=
  match v with
  | JDict d => ret (JDict (dict_set d k x))
  | _ => raise TypeError
  end.

(** [v.keys()] *)
Definition keys (v : json) : py (list string) :=
  match v with
  | JDict d => ret (map fst d)
  | _ => raise AttributeError
  end.

(** A [str] is held as the bytes of its UTF-8 encoding.  A byte in
    [128, 192) continues the code point begun before it. *)
Definition is_continuation (c : ascii) : bool :=
  let n := nat_of_ascii c in (128 <=? n)%nat && (n <? 192)%nat.

Definition starts_with_continuation (s : string) : bool :=
  match s with
  | EmptyString => false
  | String c _ => is_continuation c
  end.

(** The characters of a [str]: one string per code point. *)
Fixpoint code_points (s : string) : list string :=
  match s with
  | EmptyString => []
  | String c rest =>
      match code_points rest with
      | [] => [String c EmptyString]
      | p :: ps =>
          if starts_with_continuation rest then String c p :: ps
          else String c EmptyString :: p :: ps
      end
  end.

(** What iterating a [str] visits. *)
Definition chars (s : string) : list json := map JStr (code_points s).

(** [iter(v)]: the elements a [for] loop visits. *)
Definition iter (v : json) : py (list json) :=
  match v with
  | JList l => ret l
  | JStr s => ret (chars s)
  | JDict d => ret (map (fun kv => JStr (fst kv)) d)
  | _ => raise TypeError
  end.

(** [len(v)], evaluated for a debug line: only whether it raises matters. *)
Definition len (v : json) : py nat :=
  match v with
  | JList l => ret (List.length l)
  | JStr s => ret (String.length s)
  | JDict d => ret (List.length d)
  | _ => raise TypeError
  end.

(** [v[:n]], evaluated for a debug line: only whether it raises matters.
    A dict rejects a slice key with [TypeError] or [KeyError] depending on
    the interpreter version; both are caught alike. *)
Definition slice_prefix (v : json) : py unit :=
  match v with
  | JStr _ | JList _ => ret tt
  | _ => raise TypeError
  end.

(** [v == s] for a string [s]. *)
Definition eq_str (v : json) (s : string) : bool :=
  match v with
  | JStr t => String.eqb t s
  | _ => false
  end.

(** [sep.join(parts)] on strings. *)
Fixpoint join (sep : string) (parts : list string) : string :=
  match parts with
  | [] => ""
  | [s] => s
  | s :: rest => s +:+ sep +:+ join sep rest
  end.

(** The strings of a list of values, when every value is a string. *)
Fixpoint all_str (vs : list json) : option (list string) :=
  match vs with
  | [] => Some []
  | JStr s :: rest => option_map (cons s) (all_str rest)
  | _ :: _ => None
  end.

(** [sep.join(vs)] on a list of arbitrary values: [TypeError] unless all
    are strings. *)
Definition join_values (sep : string) (vs : list json) : py string :=
  match all_str vs with
  | Some ss => ret (join sep ss)
  | None => raise TypeError
  end.

(** [sub in s] on strings. *)
Fixpoint contains (s sub : string) : bool :=
  String.prefix sub s ||
  match s with
  | EmptyString => false
  | String _ rest => contains rest sub
  end.

End Py.

(** * Part II: the source files *)

(** ** [host_agent/verification_agent.py] *)

Module verification_agent.
Import Py.

(** The generation client of [google.genai]: [generate_content] takes the
    model name and the prompt, and raises or returns a response whose
    [text] is a string or [None]. *)
Record Client : Type := {
  generate_content : string -> string -> py (option string)
}.

Section Source.

(** [os.getenv] *)
Variable getenv : string -> option string.
(** The constructor [Client(vertexai=True, project=..., location=...)]. *)
Variable new_Client : option string -> string -> py Client.
(** [json.loads] *)
Variable loads : string -> py json.

Definition getenv_default (name dflt : string) : string :=
  match getenv name with
  | Some v => v
  | None => dflt
  end.

(** [get_verification_client]: the global [_verification_client] is passed
    in and returned. *)
Definition get_verification_client (global : option Client) : py Client * option Client :=
  match global with
  | Some c => (ret c, global)
  | None =>
      match new_Client (getenv "GOOGLE_CLOUD_PROJECT")
                       (getenv_default "GOOGLE_CLOUD_LOCATION" "us-central1") with
      | inl e => (raise e, None)
      | inr c => (ret c, Some c)
      end
  end.

Definition dq : string := String (ascii_of_nat 34) EmptyString.

(** The f-string [verification_prompt]. *)
Definition verification_prompt (original_query agent_response expected_topic : string) : string :=
  join nl
    [ "";
      "You are a Response Verification Specialist. Analyze if this agent response is relevant and safe.";
      "";
      "Expected topic: " +:+ expected_topic;
      "User's original query: " +:+ dq +:+ original_query +:+ dq;
      "Agent's response: " +:+ dq +:+ agent_response +:+ dq;
      "";
      "Analyze and respond with a JSON object:";
      "{";
      "    " +:+ dq +:+ "is_relevant" +:+ dq +:+ ": true/false,";
      "    " +:+ dq +:+ "is_safe" +:+ dq +:+ ": true/false,";
      "    " +:+ dq +:+ "topic_match" +:+ dq +:+ ": true/false,";
      "    " +:+ dq +:+ "risk_level" +:+ dq +:+ ": " +:+ dq +:+ "none/low/medium/high" +:+ dq +:+ ",";
      "    " +:+ dq +:+ "explanation" +:+ dq +:+ ": " +:+ dq +:+ "Brief explanation" +:+ dq +:+ ",";
      "    " +:+ dq +:+ "detected_issues" +:+ dq +:+ ": ["
        +:+ dq +:+ "list" +:+ dq +:+ ", " +:+ dq +:+ "of" +:+ dq +:+ ", " +:+ dq +:+ "issues" +:+ dq +:+ "] or []";
      "}";
      "";
      "Guidelines:";
      "- A response is relevant if it addresses the user's query about imports or invoices";
      "- A response is NOT safe if it contains: illegal activities, violence, personal data theft, fraud, etc.";
      "- Be strict about safety but reasonable about relevance";
      "- Respond ONLY with valid JSON, no additional text";
      "" ].

(** [json.loads(response.text)]: [None] is rejected with [TypeError]. *)
Definition loads_text (text : option string) : py json :=
  match text with
  | Some s => loads s
  | None => raise TypeError
  end.

(** Lines 92-102: the compatibility fields added to the parsed result. *)
Definition add_compatibility_fields (result : json) : py json :=
  (* result["security_alert"] = not result.get("is_safe", True) *)
  bind (get_default result "is_safe" (JBool true)) (fun is_safe =>
  bind (setitem result "security_alert" (JBool (negb (truthy is_safe)))) (fun result =>
  (* result["status"] = "relevant" if ... and ... else "security_risk" *)
  bind (get result "is_relevant") (fun is_relevant =>
  bind (if truthy is_relevant then get result "is_safe" else ret is_relevant) (fun both =>
  bind (setitem result "status"
          (JStr (if truthy both then "relevant" else "security_risk"))) (fun result =>
  (* the emoji *)
  bind (get result "is_safe") (fun is_safe =>
  if negb (truthy is_safe) then setitem result "emoji" (JStr "🚨")
  else
    bind (get result "is_relevant") (fun is_relevant =>
    if negb (truthy is_relevant) then setitem result "emoji" (JStr "⚠️")
    else setitem result "emoji" (JStr "✅")))))))).

(** The dict returned by the [except] branch. *)
Definition safe_defaults : json :=
  JDict [ ("status", JStr "success");
          ("verification",
           JDict [ ("is_relevant", JBool true);
                   ("is_safe", JBool true);
                   ("topic_match", JBool true);
                   ("risk_level", JStr "none");
                   ("explanation", JStr "Verification system unavailable, proceeding with caution");
                   ("detected_issues", JList []);
                   ("security_alert", JBool false);
                   ("status", JStr "relevant");
                   ("emoji", JStr "✅") ]) ].

(** The body of the [try] block of [verify_response]. *)
Definition verify_try (original_query agent_response expected_topic : string)
    (global : option Client) : py json * option Client :=
  let (client, global) := get_verification_client global in
  (bind client (fun client =>
   let model := getenv_default "GEMINI_MODEL" "gemini-2.0-flash-exp" in
   let prompt := verification_prompt original_query agent_response expected_topic in
   bind (generate_content client model prompt) (fun response_text =>
   bind (loads_text response_text) (fun result =>
   bind (add_compatibility_fields result) (fun result =>
   ret (JDict [ ("status", JStr "success"); ("verification", result) ]))))),
   global).

(** [verify_response]: the outcome seen by the caller, and the global
    client afterwards. *)
Definition verify_response (original_query agent_response expected_topic : string)
    (global : option Client) : py json * option Client :=
  let (body, global) := verify_try original_query agent_response expected_topic global in
  (try_except body (fun _ => ret safe_defaults), global).

End Source.

End verification_agent.

(** ** The remote connection and the A2A envelope types

    [remote_agent_connection.py] and the [a2a.types] classes are used by
    [agent.py] through the few operations below. *)

Module a2a.
Import Py.

(** [SendMessageRequest(id=..., params=...)] *)
Record SendMessageRequest : Type := {
  id : string;
  params : json
}.

(** [send_response.root.result]: a [Message], or a [Task].  A task is
    carried by [json.loads(root.model_dump_json(exclude_none=True))], the
    only view of it the code takes. *)
Inductive SendResult : Type :=
| Message
| Task (json_content : json).

(** [send_response.root] *)
Inductive SendMessageResponse : Type :=
| JSONRPCErrorResponse
| SendMessageSuccessResponse (result : SendResult).

(** [RemoteAgentConnections]: [client.send_message(request)] raises or
    returns a response. *)
Record RemoteAgentConnections : Type := {
  send_message : SendMessageRequest -> py SendMessageResponse
}.

(** [AgentCard]: the fields the host reads. *)
Record AgentCard : Type := {
  name : string;
  description : string
}.

End a2a.

(** ** The ADK event and session types used by [HostAgent.stream] *)

Module adk.
Import Py.

(** [types.Part]: [text] is a string or [None]. *)
Record Part : Type := { text : option string }.

(** [types.Content]: [parts] is a list or [None]. *)
Record Content : Type := { parts : option (list Part) }.

(** An [Event] of [runner.run_async]. *)
Record Event : Type := {
  is_final_response : bool;
  content : option Content
}.

(** A session of the [InMemorySessionService]. *)
Record Session : Type := {
  session_id : string;
  state : gmap string json
}.

End adk.

(** ** [host_agent/orchestration_tools.py] *)

Module orchestration_tools.
Import Py.

Definition get_import_keywords : list string :=
  [ "import"; "imports"; "importation"; "importations";
    "customs"; "customs office"; "colombia"; "colombian";
    "legalization"; "process"; "requirements"; "documents";
    "dian"; "certificate"; "origin"; "tariff";
    "foreign trade"; "declaration"; "duties" ].

Definition get_invoice_keywords : list string :=
  [ "invoice"; "invoices"; "bill"; "bills";
    "charge"; "payment"; "billing"; "account";
    "amount"; "total"; "vat"; "tax"; "withholding";
    "client"; "customer"; "supplier"; "provider";
    "date"; "number"; "receipt"; "value" ].

(** Lines 37-38: the text before the optional line of issues. *)
Definition alert_header : string :=
  "🚨 **SECURITY ALERT** 🚨" +:+ nl +:+ nl
  +:+ "I cannot process this request because it contains content outside my scope or potentially unsafe material."
  +:+ nl.

(** Lines 43-45: the text after it. *)
Definition alert_footer : string :=
  nl +:+ "Please rephrase your query focusing on topics related to:" +:+ nl
  +:+ "• Imports and customs processes in Colombia" +:+ nl
  +:+ "• Information about invoices and commercial documents" +:+ nl.

(** [create_security_alert]: [detected_issues] is whatever the caller
    passes, [None] by default; nothing here catches an exception. *)
Definition create_security_alert (detected_issues : json) : py string :=
  let alert := alert_header in
  bind (if truthy detected_issues then
          bind (iter detected_issues) (fun items =>
          bind (join_values ", " items) (fun joined =>
          ret (alert +:+ (nl +:+ "Issues detected: " +:+ joined +:+ nl))))
        else ret alert) (fun alert =>
  ret (alert +:+ alert_footer)).

End orchestration_tools.

(** ** [host_agent/agent.py] *)

Module agent.
Import Py.

(** What a call of [send_message] can change outside its own frame: the
    random UUID generator is advanced, and requests leave for remote
    agents (logged oldest first with the name of the agent). *)
Record world : Type := {
  uuid_calls : nat;
  delegations : list (string * a2a.SendMessageRequest)
}.

(** [self.remote_agent_connections]: a dict in insertion order.  An entry
    holds a connection, or a falsy placeholder ([None]) for the guard
    [if not client]. *)
Definition connections : Type := list (string * option a2a.RemoteAgentConnections).

Section Source.

(** [str.lower] *)
Variable lower : string -> string.
(** [str(e)] for a caught exception *)
Variable exn_str : exn -> string.
(** [str(uuid.uuid4())] at the n-th call of the generator *)
Variable uuid4 : nat -> string.
(** [MessageSendParams.model_validate] *)
Variable model_validate : json -> py json.
(** [json.dumps(v, indent=2, ensure_ascii=False)] *)
Variable dumps : json -> string.

(** [name in self.remote_agent_connections] *)
Fixpoint has_key {V} (d : list (string * V)) (k : string) : bool :=
  match d with
  | [] => false
  | (k', _) :: rest => String.eqb k' k || has_key rest k
  end.

(** [self.remote_agent_connections[name]]: [None] stands for [KeyError]. *)
Fixpoint item {V} (d : list (string * V)) (k : string) : option V :=
  match d with
  | [] => None
  | (k', v) :: rest => if String.eqb k' k then Some v else item rest k
  end.

(** Line 203: the test of the partial match. *)
Definition partial_match (agent_name card_name : string) : bool :=
  contains (lower card_name) (lower agent_name)
  || contains (lower agent_name) (lower card_name).

(** Lines 202-206: the loop over the keys, left at the first match. *)
Fixpoint find_partial (agent_name : string) (card_names : list string) : option string :=
  match card_names with
  | [] => None
  | card_name :: rest =>
      if partial_match agent_name card_name then Some card_name
      else find_partial agent_name rest
  end.

(** Lines 199-210: the agent name after resolution ([inr]), or the string
    returned when no agent is found ([inl]). *)
Definition resolve (conns : connections) (agent_name : string) : string + string :=
  if has_key conns agent_name then inr agent_name
  else
    match find_partial agent_name (map fst conns) with
    | Some card_name => inr card_name
    | None =>
        inl ("Error: Agent '" +:+ agent_name +:+ "' not found. Available agents: "
             +:+ join ", " (map fst conns))
    end.

(** Lines 264-280: one part of an artifact. *)
Definition extract_artifact_part (part : json) (texts : list json) : py (list json) :=
  match part with
  | JDict d =>
      if truthy (dict_get d "text") then
        bind (getitem part "text") (fun t =>
        bind (slice_prefix t) (fun _ =>
        ret (texts ++ [t])))
      else if truthy (dict_get d "data") then
        bind (getitem part "data") (fun data =>
        let data_str := dumps data in
        ret (texts ++ [JStr ("Extracted data:" +:+ nl +:+ data_str)]))
      else if eq_str (dict_get d "kind") "text" && truthy (dict_get d "text") then
        bind (getitem part "text") (fun t =>
        ret (texts ++ [t]))
      else ret texts
  | JStr _ => ret (texts ++ [part])
  | _ => ret texts
  end.

(** Lines 260-280: one artifact. *)
Definition extract_artifact (artifact : json) (texts : list json) : py (list json) :=
  bind (keys artifact) (fun _ =>
  bind (get artifact "parts") (fun parts =>
  if truthy parts then
    bind (getitem artifact "parts") (fun parts =>
    bind (iter parts) (fun parts =>
    for_each parts extract_artifact_part texts))
  else ret texts)).

(** [json_content.get("result", {})] *)
Definition result_of (json_content : json) : py json :=
  get_default json_content "result" (JDict []).

(** Lines 257-280: the artifacts. *)
Definition extract_artifacts (json_content : json) (texts : list json) : py (list json) :=
  bind (result_of json_content) (fun result =>
  bind (get result "artifacts") (fun artifacts =>
  if truthy artifacts then
    bind (getitem json_content "result") (fun result =>
    bind (getitem result "artifacts") (fun artifacts =>
    bind (len artifacts) (fun _ =>
    bind (iter artifacts) (fun artifacts =>
    for_each artifacts extract_artifact texts))))
  else ret texts)).

(** Lines 283-285: the direct text of the result. *)
Definition extract_direct_text (json_content : json) (texts : list json) : py (list json) :=
  bind (result_of json_content) (fun result =>
  bind (get result "text") (fun t =>
  if truthy t then
    bind (getitem json_content "result") (fun result =>
    bind (getitem result "text") (fun t =>
    ret (texts ++ [t])))
  else ret texts)).

(** Lines 290-291 and 297-298: an entry that is a dict with a text. *)
Definition extract_text_entry (entry : json) (texts : list json) : py (list json) :=
  match entry with
  | JDict d =>
      if truthy (dict_get d "text") then
        bind (getitem entry "text") (fun t => ret (texts ++ [t]))
      else ret texts
  | _ => ret texts
  end.

(** Lines 288-292: the messages of the result. *)
Definition extract_messages (json_content : json) (texts : list json) : py (list json) :=
  bind (result_of json_content) (fun result =>
  bind (get result "messages") (fun messages =>
  if truthy messages then
    bind (getitem json_content "result") (fun result =>
    bind (getitem result "messages") (fun messages =>
    bind (iter messages) (fun messages =>
    for_each messages extract_text_entry texts)))
  else ret texts)).

(** Lines 295-299: the parts of the status message. *)
Definition extract_status_message (json_content : json) (texts : list json) : py (list json) :=
  bind (result_of json_content) (fun result =>
  bind (get_default result "status" (JDict [])) (fun status =>
  bind (get_default status "message" (JDict [])) (fun message =>
  bind (get message "parts") (fun parts =>
  if truthy parts then
    bind (getitem json_content "result") (fun result =>
    bind (getitem result "status") (fun status =>
    bind (getitem status "message") (fun message =>
    bind (getitem message "parts") (fun parts =>
    bind (iter parts) (fun parts =>
    for_each parts extract_text_entry texts)))))
  else ret texts)))).

(** Line 301 *)
Definition response_text (texts : list json) : py string :=
  match texts with
  | [] => ret "No response from agent"
  | _ => join_values nl texts
  end.

(** Lines 249-305: from the decoded response to the returned text. *)
Definition extract (json_content : json) : py string :=
  bind (keys json_content) (fun _ =>
  bind (result_of json_content) (fun _ =>
  bind (extract_artifacts json_content []) (fun texts =>
  bind (extract_direct_text json_content texts) (fun texts =>
  bind (extract_messages json_content texts) (fun texts =>
  bind (extract_status_message json_content texts) (fun texts =>
  response_text texts)))))).

(** Lines 223-231 *)
Definition payload (task message_id : string) (task_id context_id : json) : json :=
  JDict [ ("message",
           JDict [ ("role", JStr "user");
                   ("parts", JList [ JDict [ ("type", JStr "text"); ("text", JStr task) ] ]);
                   ("messageId", JStr message_id);
                   ("taskId", task_id);
                   ("contextId", context_id) ]) ].

(** [state.get(key, default)] on the tool context's state. *)
Definition state_get (state : gmap string json) (key : string) (dflt : json) : json :=
  default dflt (state !! key).

(** Lines 234-305: the body of the [try] block. *)
Definition send_try (client : a2a.RemoteAgentConnections) (agent_name message_id : string)
    (payload : json) (w : world) : py string * world :=
  match model_validate payload with
  | inl e => (raise e, w)
  | inr params =>
      let message_request := {| a2a.id := message_id; a2a.params := params |} in
      let w := {| uuid_calls := uuid_calls w;
                  delegations := delegations w ++ [(agent_name, message_request)] |} in
      match a2a.send_message client message_request with
      | inl e => (raise e, w)
      | inr (a2a.SendMessageSuccessResponse (a2a.Task json_content)) =>
          (extract json_content, w)
      | inr _ => (ret ("Error: Invalid response from agent " +:+ agent_name), w)
      end
  end.

(** Lines 217-310: the delegation to a client that is available. *)
Definition delegate (client : a2a.RemoteAgentConnections) (agent_name task : string)
    (state : gmap string json) (w : world) : py string * gmap string json * world :=
  let n := uuid_calls w in
  let task_id := state_get state "task_id" (JStr (uuid4 n)) in
  let context_id := state_get state "context_id" (JStr (uuid4 (S n))) in
  let message_id := uuid4 (S (S n)) in
  let w := {| uuid_calls := S (S (S n)); delegations := delegations w |} in
  let '(body, w) :=
    send_try client agent_name message_id (payload task message_id task_id context_id) w in
  (try_except body
     (fun e => ret ("Error communicating with " +:+ agent_name +:+ ": " +:+ exn_str e)),
   state, w).

(** [HostAgent.send_message]: the outcome seen by the caller, the tool
    context's state and the world afterwards. *)
Definition send_message (conns : connections) (agent_name task : string)
    (state : gmap string json) (w : world) : py string * gmap string json * world :=
  match resolve conns agent_name with
  | inl not_found => (ret not_found, state, w)
  | inr agent_name =>
      match item conns agent_name with
      | None => (raise KeyError, state, w)
      | Some None => (ret ("Error: Client not available for " +:+ agent_name), state, w)
      | Some (Some client) => delegate client agent_name task state w
      end
  end.

(** [bool(p.text)] *)
Definition has_text (p : adk.Part) : bool :=
  match adk.text p with
  | Some t => negb (String.eqb t "")
  | None => false
  end.

(** [p.text] where it is a string. *)
Definition text_of (p : adk.Part) : string := default "" (adk.text p).

(** Lines 179-183: the condition on the content of a final event. *)
Definition first_part_has_text (content : option adk.Content) : bool :=
  match content with
  | None => false
  | Some c =>
      match adk.parts c with
      | None | Some [] => false
      | Some (p0 :: _) => has_text p0
      end
  end.

(** [event.content.parts] once the condition holds. *)
Definition parts_of (content : option adk.Content) : list adk.Part :=
  match content with
  | Some c => default [] (adk.parts c)
  | None => []
  end.

(** Lines 177-195: the dict yielded for one event. *)
Definition stream_event (event : adk.Event) : json :=
  if adk.is_final_response event then
    let response :=
      if first_part_has_text (adk.content event)
      then join nl (map text_of (List.filter has_text (parts_of (adk.content event))))
      else "" in
    JDict [ ("is_task_complete", JBool true); ("content", JStr response) ]
  else
    JDict [ ("is_task_complete", JBool false);
            ("updates", JStr "The orchestrator agent is processing your query...") ].

(** [HostAgent.stream]: the session is looked up or created with an empty
    state, then one dict is yielded per event of the runner. *)
Definition stream (run_async : adk.Session -> string -> list adk.Event)
    (sessions : gmap string adk.Session) (query session_id : string)
    : list json * gmap string adk.Session :=
  let '(session, sessions) :=
    match sessions !! session_id with
    | Some s => (s, sessions)
    | None =>
        let s := {| adk.session_id := session_id; adk.state := ∅ |} in
        (s, <[session_id := s]> sessions)
    end in
  (map stream_event (run_async session query), sessions).

End Source.

(** The fields of a [HostAgent] that discovery fills. *)
Record HostAgent : Type := {
  remote_agent_connections : connections;
  cards : list (string * a2a.AgentCard);
  agents : string
}.

(** [d[k] = v] on a dict in insertion order: an existing key keeps its
    place and takes the new value, a new key goes to the end. *)
Fixpoint assign {V} (d : list (string * V)) (k : string) (v : V) : list (string * V) :=
  match d with
  | [] => [(k, v)]
  | (k', v') :: rest =>
      if String.eqb k' k then (k', v) :: rest else (k', v') :: assign rest k v
  end.

Section Discovery.

(** [A2ACardResolver(client, address).get_agent_card()] *)
Variable get_agent_card : string -> py a2a.AgentCard.
(** The constructor [RemoteAgentConnections(agent_card=..., agent_url=...)]. *)
Variable RemoteAgentConnections : a2a.AgentCard -> string -> py a2a.RemoteAgentConnections.
(** [json.dumps] with its default options *)
Variable json_dumps : json -> string.

(** Lines 46-48: the fields set by [__init__]. *)
Definition __init__ : HostAgent :=
  {| remote_agent_connections := []; cards := []; agents := "" |}.

(** Lines 62-73: one address of the loop; both [except] branches only
    print. *)
Definition probe (self : HostAgent) (address : string) : HostAgent :=
  let body : py HostAgent :=
    bind (get_agent_card address) (fun card =>
    bind (RemoteAgentConnections card address) (fun remote_connection =>
    ret {| remote_agent_connections :=
             assign (remote_agent_connections self) (a2a.name card) (Some remote_connection);
           cards := assign (cards self) (a2a.name card) card;
           agents := agents self |})) in
  match body with
  | inl _ => self
  | inr self' => self'
  end.

(** Lines 75-78: one line of the summary. *)
Definition agent_info (card : a2a.AgentCard) : string :=
  json_dumps (JDict [ ("name", JStr (a2a.name card));
                      ("description", JStr (a2a.description card)) ]).

(** Line 80 *)
Definition agents_summary (infos : list string) : string :=
  match infos with
  | [] => "No agents found"
  | _ => join nl infos
  end.

(** [HostAgent._async_init_components] *)
Definition _async_init_components (self : HostAgent) (remote_agent_addresses : list string)
    : HostAgent :=
  let self := fold_left probe remote_agent_addresses self in
  {| remote_agent_connections := remote_agent_connections self;
     cards := cards self;
     agents := agents_summary (map (fun kv => agent_info (snd kv)) (cards self)) |}.

(** [HostAgent.create] *)
Definition create (remote_agent_addresses : list string) : HostAgent :=
  _async_init_components __init__ remote_agent_addresses.

End Discovery.

End agent.

(** * Part III: the specification's words *)

Module spec.
Import Py.

(** ** The data model of a raw agent response

    Any field may be absent; a field that is present on a recognised path
    has the JSON type the data model gives it: [artifacts], [parts] and
    [messages] are lists, [result], [status], [message] and every artifact
    are objects, and a [text] is a string. *)

Definition field_ok (d : list (string * json)) (k : string) (ok : json -> bool) : bool :=
  match dict_lookup d k with
  | None => true
  | Some v => ok v
  end.

Definition is_str (v : json) : bool :=
  match v with JStr _ => true | _ => false end.

Definition list_of (ok : json -> bool) (v : json) : bool :=
  match v with JList l => forallb ok l | _ => false end.

Definition object_of (ok : list (string * json) -> bool) (v : json) : bool :=
  match v with JDict d => ok d | _ => false end.

(** A part or message entry: anything, but an object's [text] is a string. *)
Definition entry_ok (p : json) : bool :=
  match p with
  | JDict d => field_ok d "text" is_str
  | _ => true
  end.

Definition artifact_ok : json -> bool :=
  object_of (fun a => field_ok a "parts" (list_of entry_ok)).

Definition status_ok : json -> bool :=
  object_of (fun s =>
    field_ok s "message" (object_of (fun m => field_ok m "parts" (list_of entry_ok)))).

Definition result_ok : json -> bool :=
  object_of (fun r =>
    field_ok r "artifacts" (list_of artifact_ok)
    && field_ok r "text" is_str
    && field_ok r "messages" (list_of entry_ok)
    && field_ok r "status" status_ok).

Definition raw_agent_response : json -> bool :=
  object_of (fun j => field_ok j "result" result_ok).

(** ** The extraction order of section 4.4, fields counted when not empty

    A [text] or [data] field counts when the object has it with a
    non-empty value; the order as it is written, where presence alone
    counts, follows below. *)

Definition present (d : list (string * json)) (k : string) : option json :=
  match dict_lookup d k with
  | Some v => if truthy v then Some v else None
  | None => None
  end.

Definition text_field (d : list (string * json)) : option string :=
  match present d "text" with
  | Some (JStr s) => Some s
  | _ => None
  end.

(** The fixed label put before pretty-printed data. *)
Definition data_label : string := "Extracted data:" +:+ nl.

(** Step 1, for one part of an artifact. *)
Definition part_fragment (dumps : json -> string) (p : json) : list string :=
  match p with
  | JStr s => [s]
  | JDict d =>
      match text_field d, present d "data" with
      | Some t, _ => [t]
      | None, Some data => [data_label +:+ dumps data]
      | None, None =>
          if eq_str (dict_get d "kind") "text"
          then match text_field d with Some t => [t] | None => [] end
          else []
      end
  | _ => []
  end.

(** The text of a message or of a status part that has one. *)
Definition entry_fragment (p : json) : list string :=
  match p with
  | JDict d => match text_field d with Some t => [t] | None => [] end
  | _ => []
  end.

Definition sub_object (d : list (string * json)) (k : string) : list (string * json) :=
  match dict_lookup d k with
  | Some (JDict d') => d'
  | _ => []
  end.

Definition sub_list (d : list (string * json)) (k : string) : list json :=
  match dict_lookup d k with
  | Some (JList l) => l
  | _ => []
  end.

Definition as_object (v : json) : list (string * json) :=
  match v with JDict d => d | _ => [] end.

(** Steps 1 to 4: all fragments, in the order of discovery. *)
Definition fragments (dumps : json -> string) (raw : json) : list string :=
  let result := sub_object (as_object raw) "result" in
  flat_map (fun artifact => flat_map (part_fragment dumps) (sub_list (as_object artifact) "parts"))
           (sub_list result "artifacts")
  ++ match text_field result with Some t => [t] | None => [] end
  ++ flat_map entry_fragment (sub_list result "messages")
  ++ flat_map entry_fragment (sub_list (sub_object (sub_object result "status") "message") "parts").

(** ** The extraction order of section 4.4 as it is written

    A field is taken when it is present, whatever its value. *)

Definition written_text (d : list (string * json)) : option string :=
  match dict_lookup d "text" with
  | Some (JStr s) => Some s
  | _ => None
  end.

Definition part_fragment_as_written (dumps : json -> string) (p : json) : list string :=
  match p with
  | JStr s => [s]
  | JDict d =>
      match written_text d, dict_lookup d "data" with
      | Some t, _ => [t]
      | None, Some data => [data_label +:+ dumps data]
      | None, None =>
          if eq_str (dict_get d "kind") "text"
          then match written_text d with Some t => [t] | None => [] end
          else []
      end
  | _ => []
  end.

Definition entry_fragment_as_written (p : json) : list string :=
  match p with
  | JDict d => match written_text d with Some t => [t] | None => [] end
  | _ => []
  end.

Definition fragments_as_written (dumps : json -> string) (raw : json) : list string :=
  let result := sub_object (as_object raw) "result" in
  flat_map (fun artifact =>
              flat_map (part_fragment_as_written dumps) (sub_list (as_object artifact) "parts"))
           (sub_list result "artifacts")
  ++ match written_text result with Some t => [t] | None => [] end
  ++ flat_map entry_fragment_as_written (sub_list result "messages")
  ++ flat_map entry_fragment_as_written
       (sub_list (sub_object (sub_object result "status") "message") "parts").

(** The sentinel returned when nothing was found. *)
Definition no_response : string := "No response from agent".

(** The final text of section 4.4. *)
Definition extracted_text (frags : list string) : string :=
  match frags with
  | [] => no_response
  | _ => join nl frags
  end.

(** ** The extraction with the branch on [kind] removed *)

Definition extract_artifact_part_without_kind (dumps : json -> string)
    (part : json) (texts : list json) : py (list json) :=
  match part with
  | JDict d =>
      if truthy (dict_get d "text") then
        bind (getitem part "text") (fun t =>
        bind (slice_prefix t) (fun _ =>
        ret (texts ++ [t])))
      else if truthy (dict_get d "data") then
        bind (getitem part "data") (fun data =>
        let data_str := dumps data in
        ret (texts ++ [JStr ("Extracted data:" +:+ nl +:+ data_str)]))
      else ret texts
  | JStr _ => ret (texts ++ [part])
  | _ => ret texts
  end.

Definition extract_artifact_without_kind (dumps : json -> string)
    (artifact : json) (texts : list json) : py (list json) :=
  bind (keys artifact) (fun _ =>
  bind (get artifact "parts") (fun parts =>
  if truthy parts then
    bind (getitem artifact "parts") (fun parts =>
    bind (iter parts) (fun parts =>
    for_each parts (extract_artifact_part_without_kind dumps) texts))
  else ret texts)).

Definition extract_artifacts_without_kind (dumps : json -> string)
    (json_content : json) (texts : list json) : py (list json) :=
  bind (agent.result_of json_content) (fun result =>
  bind (get result "artifacts") (fun artifacts =>
  if truthy artifacts then
    bind (getitem json_content "result") (fun result =>
    bind (getitem result "artifacts") (fun artifacts =>
    bind (len artifacts) (fun _ =>
    bind (iter artifacts) (fun artifacts =>
    for_each artifacts (extract_artifact_without_kind dumps) texts))))
  else ret texts)).

Definition extract_without_kind (dumps : json -> string) (json_content : json) : py string :=
  bind (keys json_content) (fun _ =>
  bind (agent.result_of json_content) (fun _ =>
  bind (extract_artifacts_without_kind dumps json_content []) (fun texts =>
  bind (agent.extract_direct_text json_content texts) (fun texts =>
  bind (agent.extract_messages json_content texts) (fun texts =>
  bind (agent.extract_status_message json_content texts) (fun texts =>
  agent.response_text texts)))))).

(** ** The texts of the parts of a final event that have one *)

Definition part_texts (ps : list adk.Part) : list string :=
  flat_map (fun p => match adk.text p with
                     | Some t => if String.eqb t "" then [] else [t]
                     | None => []
                     end) ps.

(** ** The generation call of the verification

    The call covers obtaining the client and [generate_content]; parsing
    is [json.loads] on the text of the response. *)

Definition generation_call (getenv : string -> option string)
    (new_Client : option string -> string -> py verification_agent.Client)
    (original_query agent_response expected_topic : string)
    (global : option verification_agent.Client) : py (option string) :=
  bind (fst (verification_agent.get_verification_client getenv new_Client global))
    (fun client =>
       verification_agent.generate_content client
         (verification_agent.getenv_default getenv "GEMINI_MODEL" "gemini-2.0-flash-exp")
         (verification_agent.verification_prompt original_query agent_response expected_topic)).

(** The generation call fails, or it succeeds and parsing its output fails. *)
Definition generation_or_parsing_fails (getenv : string -> option string)
    (new_Client : option string -> string -> py verification_agent.Client)
    (loads : string -> py json)
    (original_query agent_response expected_topic : string)
    (global : option verification_agent.Client) : Prop :=
  match generation_call getenv new_Client original_query agent_response expected_topic global with
  | inl _ => True
  | inr text => exists e, verification_agent.loads_text loads text = raise e
  end.

(** ** A delegation that fails

    The request is rejected before it is sent, the transport raises, or
    the response is not a success envelope whose result is a task. *)

Definition delegation_fails (model_validate : json -> py json)
    (client : a2a.RemoteAgentConnections) (message_id : string) (payload : json) : Prop :=
  match model_validate payload with
  | inl _ => True
  | inr params =>
      match a2a.send_message client {| a2a.id := message_id; a2a.params := params |} with
      | inl _ => True
      | inr (a2a.SendMessageSuccessResponse (a2a.Task _)) => False
      | inr _ => True
      end
  end.

(** A verdict field typed as a boolean when present. *)
Definition is_bool (v : json) : bool :=
  match v with JBool _ => true | _ => false end.

(** ** The invariant of the directory built by discovery

    The connections and the cards have the same keys in the same order,
    no key occurs twice, every connection is a real one, and a card is
    stored under its own name. *)

Definition directory_ok (self : agent.HostAgent) : Prop :=
  map fst (agent.remote_agent_connections self) = map fst (agent.cards self)
  /\ NoDup (map fst (agent.remote_agent_connections self))
  /\ Forall (fun kv => is_Some (snd kv)) (agent.remote_agent_connections self)
  /\ (forall k card, agent.item (agent.cards self) k = Some card -> a2a.name card = k).

(** ** The bytes of one code point *)

Fixpoint all_continuation (s : string) : bool :=
  match s with
  | EmptyString => true
  | String c rest => is_continuation c && all_continuation rest
  end.

(** ** Substrings *)

Definition substring_of (sub s : string) : Prop :=
  exists before after, s = before +:+ sub +:+ after.

End spec.

(** ** Instances of the library functions and concrete inputs for the examples *)

Module example.
Import Py.

Definition lower_ascii (c : ascii) : ascii :=
  let n := nat_of_ascii c in
  if (65 <=? n)%nat && (n <=? 90)%nat then ascii_of_nat (n + 32) else c.

(** [str.lower] on ASCII text. *)
Fixpoint lower (s : string) : string :=
  match s with
  | EmptyString => EmptyString
  | String c rest => String (lower_ascii c) (lower rest)
  end.

Definition exn_str (e : exn) : string :=
  match e with
  | AttributeError => "AttributeError"
  | TypeError => "TypeError"
  | KeyError => "KeyError"
  | JSONDecodeError => "JSONDecodeError"
  | ValidationError => "ValidationError"
  | External msg => msg
  end.

(** A generator whose n-th identifier is ["uuid-n"]. *)
Definition uuid4 (n : nat) : string := "uuid-" +:+ pretty n.

(** A validation that accepts every payload. *)
Definition model_validate (p : json) : py json := ret p.

(** A rendering for the examples, none of which has a data part. *)
Definition dumps (_ : json) : string := "{}".

Definition getenv (_ : string) : option string := None.

(** A generation backend that cannot be reached. *)
Definition unreachable_Client (_ : option string) (_ : string)
    : py verification_agent.Client :=
  raise (External "connection refused").

(** A generation backend that answers with a fixed text. *)
Definition answering_Client (_ : option string) (_ : string)
    : py verification_agent.Client :=
  ret {| verification_agent.generate_content := fun _ _ => ret (Some "verdict") |}.

(** A parser that rejects every text. *)
Definition loads_rejects (_ : string) : py json := raise JSONDecodeError.

(** A parser that yields the verdict relevant and safe. *)
Definition loads_verdict (_ : string) : py json :=
  ret (JDict [ ("is_relevant", JBool true); ("is_safe", JBool true);
               ("topic_match", JBool true); ("risk_level", JStr "none");
               ("explanation", JStr "On topic"); ("detected_issues", JList []) ]).

(** The response of end-to-end scenario 1. *)
Definition certificate_response : json :=
  JDict [ ("result",
           JDict [ ("artifacts",
                    JList [ JDict [ ("parts",
                      JList [ JDict [ ("text", JStr "You need a certificate of origin.") ] ]) ] ]) ]) ].

(** The response of the order example: an artifact text "A" and the
    direct text "B". *)
Definition a_then_b_response : json :=
  JDict [ ("result",
           JDict [ ("artifacts",
                    JList [ JDict [ ("parts", JList [ JDict [ ("text", JStr "A") ] ]) ] ]);
                   ("text", JStr "B") ]) ].

(** A response without any recognised text field. *)
Definition no_text_response : json :=
  JDict [ ("id", JStr "1"); ("jsonrpc", JStr "2.0");
          ("result", JDict [ ("id", JStr "t1"); ("kind", JStr "task");
                             ("status", JDict [ ("state", JStr "completed") ]) ]) ].

(** A response whose only artifact part is the empty plain string. *)
Definition empty_string_part_response : json :=
  JDict [ ("result", JDict [ ("artifacts", JList [ JDict [ ("parts", JList [ JStr "" ]) ] ]) ]) ].

(** A remote agent that answers every request with scenario 1. *)
Definition answering_agent : a2a.RemoteAgentConnections :=
  {| a2a.send_message := fun _ =>
       ret (a2a.SendMessageSuccessResponse (a2a.Task certificate_response)) |}.

(** A remote agent that cannot be reached. *)
Definition unreachable_agent : a2a.RemoteAgentConnections :=
  {| a2a.send_message := fun _ => raise (External "All connection attempts failed") |}.

Definition directory : agent.connections :=
  [ ("Imports_Agent", Some answering_agent); ("Invoices_Agent", Some unreachable_agent) ].

Definition fresh_world : agent.world :=
  {| agent.uuid_calls := 0; agent.delegations := [] |}.

Definition send_message : agent.connections -> string -> string -> gmap string json ->
    agent.world -> py string * gmap string json * agent.world :=
  agent.send_message lower exn_str uuid4 model_validate dumps.

(** A field of the message of a request that was sent. *)
Definition message_field (k : string) (sent : string * a2a.SendMessageRequest) : json :=
  dict_get (spec.sub_object (spec.as_object (a2a.params (snd sent))) "message") k.

(** A directory in which an earlier key contains a later one. *)
Definition shadowed_directory : agent.connections :=
  [ ("Invoices_Agent_v2", Some unreachable_agent); ("Invoices_Agent", Some answering_agent) ].

(** What [verify_response] returns with [answering_Client] and
    [loads_verdict]. *)
Definition verified_answer : json :=
  JDict [ ("status", JStr "success");
          ("verification",
           JDict [ ("is_relevant", JBool true); ("is_safe", JBool true);
                   ("topic_match", JBool true); ("risk_level", JStr "none");
                   ("explanation", JStr "On topic"); ("detected_issues", JList []);
                   ("security_alert", JBool false); ("status", JStr "relevant");
                   ("emoji", JStr "✅") ]) ].

(** A final event whose first part has no text and whose second has. *)
Definition late_text_event : adk.Event :=
  {| adk.is_final_response := true;
     adk.content := Some {| adk.parts := Some [ {| adk.text := None |};
                                                {| adk.text := Some "later" |} ] |} |}.

(** Two delegations, one after the other, in a session whose state starts
    empty as [stream] creates it: the state and the world after the
    second. *)
Definition two_turns : gmap string json * agent.world :=
  let '(_, state1, w1) :=
    send_message directory "Imports_Agent" "first question" ∅ fresh_world in
  let '(_, state2, w2) :=
    send_message directory "Imports_Agent" "second question" state1 w1 in
  (state2, w2).

(** A response whose artifact part has an empty text, with a direct
    text "B". *)
Definition empty_text_response : json :=
  JDict [ ("result",
           JDict [ ("artifacts",
                    JList [ JDict [ ("parts",
                      JList [ JDict [ ("kind", JStr "text"); ("text", JStr "") ] ]) ] ]);
                   ("text", JStr "B") ]) ].

(** A response whose only artifact part holds empty data. *)
Definition empty_data_response : json :=
  JDict [ ("result",
           JDict [ ("artifacts",
                    JList [ JDict [ ("parts",
                      JList [ JDict [ ("kind", JStr "data"); ("data", JDict []) ] ]) ] ]) ]) ].

(** An event that is not final. *)
Definition progress_event : adk.Event :=
  {| adk.is_final_response := false; adk.content := None |}.

(** A runner that emits a progress event, then [late_text_event]. *)
Definition run_async (_ : adk.Session) (_ : string) : list adk.Event :=
  [ progress_event; late_text_event ].

(** A validation that rejects every payload. *)
Definition model_validate_rejects (_ : json) : py json := raise ValidationError.

(** The client that [answering_Client] builds. *)
Definition fixed_client : verification_agent.Client :=
  {| verification_agent.generate_content := fun _ _ => ret (Some "verdict") |}.

(** A parser that yields an empty list. *)
Definition loads_list (_ : string) : py json := ret (JList []).

(** A parser that yields a verdict without the field [is_safe]. *)
Definition loads_partial (_ : string) : py json :=
  ret (JDict [ ("is_relevant", JBool true); ("explanation", JStr "On topic") ]).

(** A state of the tool context that holds both identifiers. *)
Definition populated_state : gmap string json :=
  <["task_id" := JStr "t-1"]> (<["context_id" := JStr "c-1"]> ∅).

(** A response whose direct text is a number. *)
Definition number_text_response : json :=
  JDict [ ("result", JDict [ ("text", JInt 5) ]) ].

(** A remote agent that answers with it. *)
Definition number_agent : a2a.RemoteAgentConnections :=
  {| a2a.send_message := fun _ =>
       ret (a2a.SendMessageSuccessResponse (a2a.Task number_text_response)) |}.

Definition imports_card : a2a.AgentCard :=
  {| a2a.name := "Imports_Agent"; a2a.description := "Imports and customs in Colombia" |}.

Definition invoices_card : a2a.AgentCard :=
  {| a2a.name := "Invoices_Agent"; a2a.description := "Invoices and receipts" |}.

(** Two endpoints answer with their card; every other address fails. *)
Definition get_agent_card (address : string) : py a2a.AgentCard :=
  if String.eqb address "http://localhost:8005" then ret imports_card
  else if String.eqb address "http://localhost:8006" then ret invoices_card
  else raise (External "All connection attempts failed").

(** A constructor of connections that always succeeds. *)
Definition connect (_ : a2a.AgentCard) (_ : string) : py a2a.RemoteAgentConnections :=
  ret answering_agent.

Definition create : list string -> agent.HostAgent :=
  agent.create get_agent_card connect dumps.

End example.

(** * Part IV: properties *)

(** ** The runtime fragment *)

Section Runtime.
Import Py.

Lemma bind_ret {A B} (a : A) (k : A -> py B) : bind (ret a) k = k a.
Proof. reflexivity. Qed.

Lemma bind_raise {A B} (e : exn) (k : A -> py B) : bind (raise e) k = raise e.
Proof. reflexivity. Qed.

Lemma try_except_returns {A} (body : py A) (handler : exn -> A) :
  exists a, try_except body (fun e => ret (handler e)) = ret a.
Proof. destruct body as [e | a]; simpl; eauto. Qed.

Lemma for_each_app {A S} (xs ys : list A) (step : A -> S -> py S) (acc : S) :
  for_each (xs ++ ys) step acc = bind (for_each xs step acc) (for_each ys step).
Proof.
  revert acc. induction xs as [| x xs IH]; intros acc; simpl; [reflexivity |].
  destruct (step x acc) as [e | acc']; simpl; [reflexivity | apply IH].
Qed.

(** A loop whose steps only append: the result is the accumulator followed
    by what each element contributes. *)
Lemma for_each_appends {A B} (xs : list A) (step : A -> list B -> py (list B))
    (contrib : A -> list B) (acc : list B) :
  Forall (fun x => forall acc, step x acc = ret (acc ++ contrib x)) xs ->
  for_each xs step acc = ret (acc ++ flat_map contrib xs).
Proof.
  intros H. revert acc. induction H as [| x xs Hx _ IH]; intros acc; simpl.
  - by rewrite app_nil_r.
  - rewrite Hx. simpl. rewrite IH. by rewrite <- app_assoc.
Qed.

Lemma for_each_ext {A S} (xs : list A) (f g : A -> S -> py S) (acc : S) :
  (forall x acc, f x acc = g x acc) -> for_each xs f acc = for_each xs g acc.
Proof.
  intros H. revert acc. induction xs as [| x xs IH]; intros acc; simpl; [reflexivity |].
  rewrite H. destruct (g x acc); simpl; [reflexivity | apply IH].
Qed.

Lemma string_app_cons (c : ascii) (a b : string) : String c a +:+ b = String c (a +:+ b).
Proof. reflexivity. Qed.

Lemma string_app_nil (b : string) : "" +:+ b = b.
Proof. reflexivity. Qed.

Lemma string_app_nil_r (a : string) : a +:+ "" = a.
Proof.
  induction a as [| x a IH]; [reflexivity |].
  rewrite string_app_cons. f_equal. exact IH.
Qed.

Lemma string_app_assoc (a b c : string) : (a +:+ b) +:+ c = a +:+ (b +:+ c).
Proof.
  induction a as [| x a IH]; [reflexivity |].
  rewrite !string_app_cons. f_equal. exact IH.
Qed.

Lemma prefix_spec (sub s : string) :
  String.prefix sub s = true <-> exists after, s = sub +:+ after.
Proof.
  revert s. induction sub as [| a sub IH]; intros s.
  - split; [intros _; by exists s | by destruct s].
  - destruct s as [| b s]; simpl.
    + split; [done | intros [after H]; discriminate].
    + destruct (ascii_dec a b) as [-> | Hne].
      * rewrite IH. split; intros [after H]; exists after.
        -- rewrite string_app_cons. by rewrite H.
        -- rewrite string_app_cons in H. by injection H.
      * split; [done |]. intros [after H]. rewrite string_app_cons in H.
        injection H; intros; congruence.
Qed.

(** [sub in s] holds exactly when [s] is [sub] with something before and
    something after it. *)
Lemma contains_spec (s sub : string) :
  contains s sub = true <-> spec.substring_of sub s.
Proof.
  unfold spec.substring_of. induction s as [| c s IH].
  - change (contains "" sub) with (String.prefix sub "" || false).
    rewrite orb_false_r, prefix_spec. split.
    + intros [after H]. by exists "", after.
    + intros [before [after H]]. destruct before; [by exists after | discriminate].
  - change (contains (String c s) sub) with (String.prefix sub (String c s) || contains s sub).
    rewrite orb_true_iff, prefix_spec, IH. split.
    + intros [[after H] | [before [after H]]].
      * by exists "", after.
      * exists (String c before), after. rewrite string_app_cons. by rewrite H.
    + intros [before [after H]]. destruct before as [| c' before].
      * left. by exists after.
      * right. rewrite string_app_cons in H. injection H as _ H. by exists before, after.
Qed.

Lemma contains_middle (a name b : string) : contains (a +:+ name +:+ b) name = true.
Proof. apply contains_spec. by exists a, b. Qed.

Lemma dict_lookup_set_other (d : list (string * json)) (k k' : string) (v : json) :
  k <> k' -> dict_lookup (dict_set d k v) k' = dict_lookup d k'.
Proof.
  intros Hne. induction d as [| [k0 v0] d IH]; simpl.
  - destruct (String.eqb_spec k k'); [done | reflexivity].
  - destruct (String.eqb_spec k0 k) as [-> | Hk]; simpl.
    + destruct (String.eqb_spec k k'); [done | reflexivity].
    + destruct (String.eqb_spec k0 k'); [reflexivity | apply IH].
Qed.

Lemma dict_lookup_set_same (d : list (string * json)) (k : string) (v : json) :
  dict_lookup (dict_set d k v) k = Some v.
Proof.
  induction d as [| [k0 v0] d IH]; simpl.
  - by rewrite String.eqb_refl.
  - destruct (String.eqb_spec k0 k) as [-> | Hk]; simpl.
    + by rewrite String.eqb_refl.
    + destruct (String.eqb_spec k0 k); [done | apply IH].
Qed.

End Runtime.

(** ** Verification of a response *)

Section Verification.
Import Py verification_agent.

Variable getenv : string -> option string.
Variable new_Client : option string -> string -> py Client.
Variable loads : string -> py json.

Lemma dict_get_default_set_other (d : list (string * json)) (k k' : string) (v dflt : json) :
  k <> k' -> dict_get_default (dict_set d k v) k' dflt = dict_get_default d k' dflt.
Proof. intros H. unfold dict_get_default. by rewrite dict_lookup_set_other. Qed.

(** The verdict computed from a parsed object: three fields are written,
    the others are kept. *)
Lemma add_compatibility_fields_dict (d : list (string * json)) :
  exists emoji,
    add_compatibility_fields (JDict d)
    = ret (JDict
        (dict_set
          (dict_set
            (dict_set d "security_alert"
               (JBool (negb (truthy (dict_get_default d "is_safe" (JBool true))))))
            "status"
            (JStr (if truthy (dict_get d "is_relevant") && truthy (dict_get d "is_safe")
                   then "relevant" else "security_risk")))
          "emoji" (JStr emoji))).
Proof.
  unfold add_compatibility_fields, get, get_default, setitem, bind, ret, dict_get.
  rewrite !dict_get_default_set_other by done.
  destruct (truthy (dict_get_default d "is_relevant" JNull)) eqn:Hrel;
    rewrite ?dict_get_default_set_other by done; rewrite ?Hrel;
    destruct (truthy (dict_get_default d "is_safe" JNull)) eqn:Hsafe;
    simpl; rewrite ?Hrel, ?Hsafe; simpl; eauto.
Qed.

(** A parsed value that is not an object has no [get]: the [try] block
    raises. *)
Lemma add_compatibility_fields_not_dict (result : json) :
  (forall d, result <> JDict d) -> add_compatibility_fields result = raise AttributeError.
Proof. intros H. destruct result; try reflexivity. by destruct (H d). Qed.

Lemma verify_response_unfold (q a t : string) (global : option Client) :
  (verify_response getenv new_Client loads q a t global).1
  = try_except
      (bind (spec.generation_call getenv new_Client q a t global) (fun text =>
       bind (loads_text loads text) (fun result =>
       bind (add_compatibility_fields result) (fun result =>
       ret (JDict [ ("status", JStr "success"); ("verification", result) ])))))
      (fun _ => ret safe_defaults).
Proof.
  unfold verify_response, verify_try, spec.generation_call.
  destruct (get_verification_client getenv new_Client global) as [[e | client] g]; reflexivity.
Qed.

(** C1: [verify_response] always returns to its caller, and when the
    generation call or the parsing of its output fails it returns the
    fail-open verdict: relevant, safe, risk level "none", status
    "relevant", with a note that the verification was unavailable. *)
Theorem verify_response_fails_open (q a t : string) (global : option Client) :
  (exists v, (verify_response getenv new_Client loads q a t global).1 = ret v)
  /\ (spec.generation_or_parsing_fails getenv new_Client loads q a t global ->
      (verify_response getenv new_Client loads q a t global).1 = ret safe_defaults)
  /\ (exists verdict,
        getitem safe_defaults "verification" = ret (JDict verdict)
        /\ dict_lookup verdict "is_relevant" = Some (JBool true)
        /\ dict_lookup verdict "is_safe" = Some (JBool true)
        /\ dict_lookup verdict "risk_level" = Some (JStr "none")
        /\ dict_lookup verdict "status" = Some (JStr "relevant")
        /\ dict_lookup verdict "explanation"
           = Some (JStr "Verification system unavailable, proceeding with caution")).
Proof.
  split; [| split].
  - rewrite verify_response_unfold. apply (try_except_returns _ (fun _ => safe_defaults)).
  - intros Hfail. rewrite verify_response_unfold.
    unfold spec.generation_or_parsing_fails in Hfail.
    destruct (spec.generation_call getenv new_Client q a t global) as [e | text];
      [reflexivity |].
    destruct Hfail as [e He]. simpl. by rewrite He.
  - eexists. repeat split.
Qed.

(** C7: on the path that does not fail open, the status of the verdict is
    "relevant" exactly when [is_relevant] and [is_safe] both hold, and
    "security_risk" otherwise; for fields typed as booleans, holding means
    being [true]. *)
Theorem status_relevant_iff_relevant_and_safe (q a t : string) (global : option Client) (v : json) :
  (verify_try getenv new_Client loads q a t global).1 = ret v ->
  exists verdict,
    getitem v "verification" = ret (JDict verdict)
    /\ (dict_lookup verdict "status" = Some (JStr "relevant")
        \/ dict_lookup verdict "status" = Some (JStr "security_risk"))
    /\ (dict_lookup verdict "status" = Some (JStr "relevant")
        <-> truthy (dict_get verdict "is_relevant") = true
            /\ truthy (dict_get verdict "is_safe") = true)
    /\ (spec.field_ok verdict "is_relevant" spec.is_bool = true ->
        spec.field_ok verdict "is_safe" spec.is_bool = true ->
        (dict_lookup verdict "status" = Some (JStr "relevant")
         <-> dict_lookup verdict "is_relevant" = Some (JBool true)
             /\ dict_lookup verdict "is_safe" = Some (JBool true))).
Proof.
  unfold verify_try.
  destruct (get_verification_client getenv new_Client global) as [[e | client] g];
    [discriminate |].
  cbn [fst bind]. unfold bind at 1.
  destruct (generate_content client _ _) as [e | text]; [discriminate |].
  unfold bind at 1. destruct (loads_text loads text) as [e | result]; [discriminate |].
  unfold bind at 1.
  destruct result as [| | | | | | d]; try discriminate.
  destruct (add_compatibility_fields_dict d) as [emoji ->].
  intros [= <-]. eexists. split; [reflexivity |].
  set (status := JStr _).
  rewrite !dict_lookup_set_other by done. rewrite dict_lookup_set_same.
  unfold dict_get, dict_get_default, spec.field_ok.
  rewrite !dict_lookup_set_other by done.
  subst status. unfold dict_get, dict_get_default.
  set (rel := match dict_lookup d "is_relevant" with Some x => x | None => JNull end).
  set (safe := match dict_lookup d "is_safe" with Some x => x | None => JNull end).
  split; [| split].
  - destruct (truthy rel && truthy safe); auto.
  - destruct (truthy rel), (truthy safe); simpl; intuition congruence.
  - subst rel safe.
    destruct (dict_lookup d "is_relevant") as [[| [|] | | | | |] |];
      destruct (dict_lookup d "is_safe") as [[| [|] | | | | |] |];
      simpl; intuition congruence.
Qed.

End Verification.

(** ** Agent selection and delegation *)

Section Delegation.
Import Py agent.

Variable lower : string -> string.
Variable exn_str : exn -> string.
Variable uuid4 : nat -> string.
Variable model_validate : json -> py json.
Variable dumps : json -> string.

Lemma has_key_In {V} (d : list (string * V)) (k : string) :
  has_key d k = true <-> In k (map fst d).
Proof.
  induction d as [| [k' v] d IH]; simpl; [done |].
  rewrite orb_true_iff, IH, String.eqb_eq. tauto.
Qed.

Lemma has_key_item {V} (d : list (string * V)) (k : string) :
  has_key d k = true -> exists v, item d k = Some v.
Proof.
  induction d as [| [k' v] d IH]; simpl; [done |].
  destruct (String.eqb k' k); simpl; eauto.
Qed.

(** The loop returns the first key, in iteration order, that passes the
    test. *)
Lemma find_partial_first (agent_name : string) (card_names : list string) (card_name : string) :
  find_partial lower agent_name card_names = Some card_name
  <-> exists before after,
        card_names = before ++ card_name :: after
        /\ partial_match lower agent_name card_name = true
        /\ Forall (fun k => partial_match lower agent_name k = false) before.
Proof.
  induction card_names as [| k ks IH]; simpl.
  - split; [done |]. intros (before & after & H & _). by destruct before.
  - destruct (partial_match lower agent_name k) eqn:Hk.
    + split.
      * intros [= <-]. exists [], ks. auto.
      * intros (before & after & H & Hm & Hb). destruct before as [| b before].
        -- by injection H as ->.
        -- injection H as -> _. inversion Hb; congruence.
    + rewrite IH. split.
      * intros (before & after & -> & Hm & Hb). exists (k :: before), after. auto.
      * intros (before & after & H & Hm & Hb). destruct before as [| b before].
        -- injection H as -> _. congruence.
        -- injection H as -> ->. inversion Hb. eauto.
Qed.

Lemma find_partial_none (agent_name : string) (card_names : list string) :
  find_partial lower agent_name card_names = None
  <-> Forall (fun k => partial_match lower agent_name k = false) card_names.
Proof.
  induction card_names as [| k ks IH]; simpl.
  - split; auto.
  - destruct (partial_match lower agent_name k) eqn:Hk.
    + split; [done |]. inversion 1; congruence.
    + rewrite IH. split; [auto |]. by inversion 1.
Qed.

Lemma find_partial_key (agent_name : string) (card_names : list string) (card_name : string) :
  find_partial lower agent_name card_names = Some card_name -> In card_name card_names.
Proof.
  rewrite find_partial_first. intros (before & after & -> & _). apply in_elt.
Qed.

(** The name left by the resolution is a key of the directory, so the
    lookup of line 212 finds an entry. *)
Lemma resolve_key (conns : connections) (agent_name resolved : string) :
  resolve lower conns agent_name = inr resolved -> exists entry, item conns resolved = Some entry.
Proof.
  unfold resolve. destruct (has_key conns agent_name) eqn:Hk.
  - intros [= <-]. by apply has_key_item.
  - destruct (find_partial lower agent_name (map fst conns)) as [card |] eqn:Hf; [| done].
    intros [= <-]. apply has_key_item, has_key_In. by apply find_partial_key in Hf.
Qed.

(** [send_message] returns a string to its caller on every input. *)
Lemma send_message_returns (conns : connections) (agent_name task : string)
    (state : gmap string json) (w : world) :
  exists msg,
    (send_message lower exn_str uuid4 model_validate dumps conns agent_name task state w).1.1
    = ret msg.
Proof.
  unfold send_message.
  destruct (resolve lower conns agent_name) as [err | resolved] eqn:Hr; [by eexists |].
  destruct (resolve_key _ _ _ Hr) as [[client |] ->]; [| by eexists].
  unfold delegate. destruct (send_try _ _ _ _ _ _ _) as [body w']. simpl.
  apply (try_except_returns body).
Qed.

(** C5: a name that is a key of the directory is kept as it is, whatever
    the partial match would find, and the delegation goes to the entry
    stored under that key. *)
Theorem exact_name_takes_precedence (conns : connections) (agent_name task : string)
    (state : gmap string json) (w : world) :
  In agent_name (map fst conns) ->
  resolve lower conns agent_name = inr agent_name
  /\ exists entry,
       item conns agent_name = Some entry
       /\ send_message lower exn_str uuid4 model_validate dumps conns agent_name task state w
          = match entry with
            | Some client =>
                delegate exn_str uuid4 model_validate dumps client agent_name task state w
            | None => (ret ("Error: Client not available for " +:+ agent_name), state, w)
            end.
Proof.
  intros Hin. apply has_key_In in Hin.
  assert (Hr : resolve lower conns agent_name = inr agent_name)
    by (unfold resolve; by rewrite Hin).
  split; [exact Hr |].
  destruct (has_key_item _ _ Hin) as [entry He]. exists entry. split; [exact He |].
  unfold send_message. rewrite Hr, He. by destruct entry.
Qed.

(** C6: for a name that is not a key, the test is a substring test on the
    lower-cased names, in either direction; the resolution is the first
    key in iteration order that passes it; when no key passes, the call
    returns the error string listing every key and leaves the world as it
    was: no request is sent. *)
Theorem partial_match_resolution (conns : connections) (agent_name task : string)
    (state : gmap string json) (w : world) :
  ~ In agent_name (map fst conns) ->
  (forall card_name,
     partial_match lower agent_name card_name = true
     <-> spec.substring_of (lower agent_name) (lower card_name)
         \/ spec.substring_of (lower card_name) (lower agent_name))
  /\ (forall card_name,
        resolve lower conns agent_name = inr card_name
        <-> exists before after,
              map fst conns = before ++ card_name :: after
              /\ partial_match lower agent_name card_name = true
              /\ Forall (fun k => partial_match lower agent_name k = false) before)
  /\ (Forall (fun k => partial_match lower agent_name k = false) (map fst conns) ->
      send_message lower exn_str uuid4 model_validate dumps conns agent_name task state w
      = (ret ("Error: Agent '" +:+ agent_name +:+ "' not found. Available agents: "
              +:+ join ", " (map fst conns)),
         state, w)).
Proof.
  intros Hnot.
  assert (Hk : has_key conns agent_name = false).
  { destruct (has_key conns agent_name) eqn:H; [| done]. by apply has_key_In in H. }
  split; [| split].
  - intros card_name. unfold partial_match.
    by rewrite orb_true_iff, !contains_spec.
  - intros card_name. rewrite <- find_partial_first. unfold resolve. rewrite Hk.
    destruct (find_partial lower agent_name (map fst conns)); split; congruence.
  - intros Hnone. apply find_partial_none in Hnone.
    unfold send_message, resolve. by rewrite Hk, Hnone.
Qed.

(** C8: when the delegation fails, the caller receives an error string
    that names the agent, not an exception. *)
Theorem failed_delegation_returns_error (conns : connections) (agent_name task : string)
    (state : gmap string json) (w : world)
    (resolved : string) (client : a2a.RemoteAgentConnections) :
  resolve lower conns agent_name = inr resolved ->
  item conns resolved = Some (Some client) ->
  spec.delegation_fails model_validate client (uuid4 (S (S (uuid_calls w))))
    (payload task (uuid4 (S (S (uuid_calls w))))
       (state_get state "task_id" (JStr (uuid4 (uuid_calls w))))
       (state_get state "context_id" (JStr (uuid4 (S (uuid_calls w)))))) ->
  exists msg,
    (send_message lower exn_str uuid4 model_validate dumps conns agent_name task state w).1.1
    = ret msg
    /\ ((exists e, msg = "Error communicating with " +:+ resolved +:+ ": " +:+ exn_str e)
        \/ msg = "Error: Invalid response from agent " +:+ resolved)
    /\ contains msg resolved = true.
Proof.
  intros Hr Hitem Hfail. unfold send_message. rewrite Hr, Hitem.
  unfold delegate, send_try. unfold spec.delegation_fails in Hfail.
  destruct (model_validate _) as [e | params].
  - eexists. split; [reflexivity |]. split; [eauto | apply contains_middle].
  - destruct (a2a.send_message client _) as [e | [| [| json_content]]]; try done.
    + eexists. split; [reflexivity |]. split; [eauto | apply contains_middle].
    + eexists. split; [reflexivity |]. split; [auto |].
      apply contains_spec. exists "Error: Invalid response from agent ", "".
      by rewrite string_app_nil_r.
    + eexists. split; [reflexivity |]. split; [auto |].
      apply contains_spec. exists "Error: Invalid response from agent ", "".
      by rewrite string_app_nil_r.
Qed.

(** When the agent answers with a task, the caller receives the text
    extracted from it (or the error string, should the extraction raise). *)
Lemma answered_delegation_returns_extract (conns : connections) (agent_name task : string)
    (state : gmap string json) (w : world)
    (resolved : string) (client : a2a.RemoteAgentConnections) (params raw : json) :
  resolve lower conns agent_name = inr resolved ->
  item conns resolved = Some (Some client) ->
  model_validate
    (payload task (uuid4 (S (S (uuid_calls w))))
       (state_get state "task_id" (JStr (uuid4 (uuid_calls w))))
       (state_get state "context_id" (JStr (uuid4 (S (uuid_calls w)))))) = ret params ->
  a2a.send_message client
    {| a2a.id := uuid4 (S (S (uuid_calls w))); a2a.params := params |}
  = ret (a2a.SendMessageSuccessResponse (a2a.Task raw)) ->
  (send_message lower exn_str uuid4 model_validate dumps conns agent_name task state w).1.1
  = try_except (extract dumps raw)
      (fun e => ret ("Error communicating with " +:+ resolved +:+ ": " +:+ exn_str e)).
Proof.
  intros Hr Hitem Hvalid Hsend. unfold send_message. rewrite Hr, Hitem.
  unfold ret in Hvalid, Hsend. unfold delegate, send_try. by rewrite Hvalid, Hsend.
Qed.

End Delegation.

(** ** Extraction of the answer text *)

Section Extraction.
Import Py agent.

Variable dumps : json -> string.

Lemma field_ok_inv (d : list (string * json)) (k : string) (ok : json -> bool) :
  spec.field_ok d k ok = true ->
  dict_lookup d k = None \/ exists v, dict_lookup d k = Some v /\ ok v = true.
Proof. unfold spec.field_ok. destruct (dict_lookup d k); eauto. Qed.

Lemma list_of_inv (ok : json -> bool) (v : json) :
  spec.list_of ok v = true -> exists l, v = JList l /\ Forall (fun x => ok x = true) l.
Proof.
  destruct v as [| | | | | l |]; try done. simpl. intros H. exists l. split; [reflexivity |].
  induction l as [| x l IH]; constructor; simpl in H; apply andb_true_iff in H; tauto.
Qed.

Lemma object_of_inv (ok : list (string * json) -> bool) (v : json) :
  spec.object_of ok v = true -> exists d, v = JDict d /\ ok d = true.
Proof. destruct v; try done. eauto. Qed.

Lemma is_str_inv (v : json) : spec.is_str v = true -> exists s, v = JStr s.
Proof. destruct v; try done. eauto. Qed.

Lemma flat_map_JStr {A} (f : A -> list string) (xs : list A) :
  flat_map (fun x => map JStr (f x)) xs = map JStr (flat_map f xs).
Proof.
  induction xs as [| x xs IH]; simpl; [reflexivity |]. by rewrite IH, map_app.
Qed.

Lemma all_str_JStr (l : list string) : all_str (map JStr l) = Some l.
Proof. induction l as [| s l IH]; simpl; [reflexivity | by rewrite IH]. Qed.

(** Line 301 on a list of strings. *)
Lemma response_text_strings (l : list string) :
  response_text (map JStr l) = ret (spec.extracted_text l).
Proof.
  destruct l as [| s l]; [reflexivity |].
  unfold response_text, join_values. by rewrite all_str_JStr.
Qed.

(** The text of an object on a recognised path, as the code tests it. *)
Lemma truthy_text (d : list (string * json)) :
  spec.field_ok d "text" spec.is_str = true ->
  match spec.text_field d with
  | Some t => truthy (dict_get d "text") = true /\ dict_lookup d "text" = Some (JStr t)
  | None => truthy (dict_get d "text") = false
  end.
Proof.
  intros H. unfold spec.text_field, spec.present, dict_get, dict_get_default.
  destruct (field_ok_inv _ _ _ H) as [-> | (v & -> & Hv)]; [reflexivity |].
  destruct (is_str_inv _ Hv) as [s ->]. by destruct (truthy (JStr s)).
Qed.

(** Lines 264-280 on a well-typed part. *)
Lemma extract_artifact_part_fragment (part : json) (texts : list json) :
  spec.entry_ok part = true ->
  extract_artifact_part dumps part texts
  = ret (texts ++ map JStr (spec.part_fragment dumps part)).
Proof.
  intros Hok. destruct part as [| | | | s | | d]; simpl; rewrite ?app_nil_r; try reflexivity.
  pose proof (truthy_text d Hok) as Ht.
  destruct (spec.text_field d) as [t |].
  - destruct Ht as [-> Hl]. by rewrite Hl.
  - rewrite Ht. rewrite andb_false_r.
    unfold spec.present, dict_get, dict_get_default.
    destruct (dict_lookup d "data") as [data |]; simpl.
    + destruct (truthy data); simpl.
      * unfold spec.data_label. by rewrite string_app_assoc.
      * destruct (eq_str _ _); by rewrite app_nil_r.
    + destruct (eq_str _ _); by rewrite app_nil_r.
Qed.

(** Lines 290-291 and 297-298 on a well-typed entry. *)
Lemma extract_text_entry_fragment (entry : json) (texts : list json) :
  spec.entry_ok entry = true ->
  extract_text_entry entry texts = ret (texts ++ map JStr (spec.entry_fragment entry)).
Proof.
  intros Hok. destruct entry as [| | | | s | | d]; simpl; rewrite ?app_nil_r; try reflexivity.
  pose proof (truthy_text d Hok) as Ht.
  destruct (spec.text_field d) as [t |].
  - destruct Ht as [-> Hl]. by rewrite Hl.
  - rewrite Ht. by rewrite app_nil_r.
Qed.

Lemma for_each_fragments (xs : list json) (step : json -> list json -> py (list json))
    (frag : json -> list string) (ok : json -> bool) (texts : list json) :
  (forall x texts, ok x = true -> step x texts = ret (texts ++ map JStr (frag x))) ->
  Forall (fun x => ok x = true) xs ->
  for_each xs step texts = ret (texts ++ map JStr (flat_map frag xs)).
Proof.
  intros Hstep Hok. rewrite <- flat_map_JStr. apply for_each_appends.
  induction Hok as [| x xs Hx _ IH]; constructor; [| exact IH].
  intros acc. by apply Hstep.
Qed.

(** Lines 260-280 on a well-typed artifact. *)
Lemma extract_artifact_fragments (artifact : json) (texts : list json) :
  spec.artifact_ok artifact = true ->
  extract_artifact dumps artifact texts
  = ret (texts ++ map JStr (flat_map (spec.part_fragment dumps)
                              (spec.sub_list (spec.as_object artifact) "parts"))).
Proof.
  intros H. apply object_of_inv in H as (a & -> & Ha).
  unfold extract_artifact, keys, get, get_default, getitem, spec.sub_list, spec.as_object,
    dict_get_default.
  rewrite !bind_ret.
  destruct (field_ok_inv _ _ _ Ha) as [-> | (v & -> & Hv)].
  - simpl. by rewrite app_nil_r.
  - apply list_of_inv in Hv as (l & -> & Hl). destruct l as [| p l].
    + simpl. by rewrite app_nil_r.
    + cbn [truthy iter]. rewrite !bind_ret.
      apply (for_each_fragments _ _ _ spec.entry_ok); [| exact Hl].
      intros x acc Hx. by apply extract_artifact_part_fragment.
Qed.

Section Result.

Variables d r : list (string * json).
Hypothesis Hresult : dict_lookup d "result" = Some (JDict r).

Lemma result_of_present : result_of (JDict d) = ret (JDict r).
Proof. unfold result_of, get_default, dict_get_default. by rewrite Hresult. Qed.

Lemma getitem_result : getitem (JDict d) "result" = ret (JDict r).
Proof. unfold getitem. by rewrite Hresult. Qed.

(** Lines 257-280 *)
Lemma extract_artifacts_fragments (texts : list json) :
  spec.field_ok r "artifacts" (spec.list_of spec.artifact_ok) = true ->
  extract_artifacts dumps (JDict d) texts
  = ret (texts ++ map JStr
           (flat_map (fun artifact =>
                        flat_map (spec.part_fragment dumps)
                          (spec.sub_list (spec.as_object artifact) "parts"))
              (spec.sub_list r "artifacts"))).
Proof.
  intros H. unfold extract_artifacts. rewrite result_of_present, getitem_result, !bind_ret.
  unfold get, get_default, getitem, spec.sub_list, dict_get_default. rewrite !bind_ret.
  destruct (field_ok_inv _ _ _ H) as [-> | (v & -> & Hv)].
  - simpl. by rewrite app_nil_r.
  - apply list_of_inv in Hv as (l & -> & Hl). destruct l as [| x l].
    + simpl. by rewrite app_nil_r.
    + cbn [truthy iter len]. rewrite !bind_ret.
      apply (for_each_fragments _ _ _ spec.artifact_ok); [| exact Hl].
      intros a acc Ha. by apply extract_artifact_fragments.
Qed.

(** Lines 283-285 *)
Lemma extract_direct_text_fragment (texts : list json) :
  spec.field_ok r "text" spec.is_str = true ->
  extract_direct_text (JDict d) texts
  = ret (texts ++ map JStr (match spec.text_field r with Some t => [t] | None => [] end)).
Proof.
  intros H. unfold extract_direct_text. rewrite result_of_present, getitem_result, !bind_ret.
  unfold get, get_default, getitem. rewrite !bind_ret.
  pose proof (truthy_text r H) as Ht. fold (dict_get r "text").
  destruct (spec.text_field r) as [t |].
  - destruct Ht as [-> Hl]. by rewrite Hl.
  - rewrite Ht. simpl. by rewrite app_nil_r.
Qed.

(** Lines 288-292 *)
Lemma extract_messages_fragments (texts : list json) :
  spec.field_ok r "messages" (spec.list_of spec.entry_ok) = true ->
  extract_messages (JDict d) texts
  = ret (texts ++ map JStr (flat_map spec.entry_fragment (spec.sub_list r "messages"))).
Proof.
  intros H. unfold extract_messages. rewrite result_of_present, getitem_result, !bind_ret.
  unfold get, get_default, getitem, spec.sub_list, dict_get_default. rewrite !bind_ret.
  destruct (field_ok_inv _ _ _ H) as [-> | (v & -> & Hv)].
  - simpl. by rewrite app_nil_r.
  - apply list_of_inv in Hv as (l & -> & Hl). destruct l as [| x l].
    + simpl. by rewrite app_nil_r.
    + cbn [truthy iter]. rewrite !bind_ret.
      apply (for_each_fragments _ _ _ spec.entry_ok); [| exact Hl].
      intros a acc Ha. by apply extract_text_entry_fragment.
Qed.

(** Lines 295-299 *)
Lemma extract_status_message_fragments (texts : list json) :
  spec.field_ok r "status" spec.status_ok = true ->
  extract_status_message (JDict d) texts
  = ret (texts ++ map JStr
           (flat_map spec.entry_fragment
              (spec.sub_list (spec.sub_object (spec.sub_object r "status") "message") "parts"))).
Proof.
  intros H. unfold extract_status_message.
  rewrite result_of_present, getitem_result, !bind_ret.
  unfold get, get_default, getitem, spec.sub_list, spec.sub_object, dict_get_default.
  rewrite !bind_ret.
  destruct (field_ok_inv _ _ _ H) as [-> | (v & -> & Hv)].
  { simpl. by rewrite app_nil_r. }
  apply object_of_inv in Hv as (st & -> & Hst). rewrite !bind_ret.
  destruct (field_ok_inv _ _ _ Hst) as [-> | (v & -> & Hv)].
  { simpl. by rewrite app_nil_r. }
  apply object_of_inv in Hv as (m & -> & Hm). rewrite !bind_ret.
  destruct (field_ok_inv _ _ _ Hm) as [-> | (v & -> & Hv)].
  { simpl. by rewrite app_nil_r. }
  apply list_of_inv in Hv as (l & -> & Hl). destruct l as [| x l].
  - simpl. by rewrite app_nil_r.
  - cbn [truthy iter]. rewrite !bind_ret.
    apply (for_each_fragments _ _ _ spec.entry_ok); [| exact Hl].
    intros a acc Ha. by apply extract_text_entry_fragment.
Qed.

End Result.

(** The extraction computes the fragments of the specification, in its
    order, on every well-typed response. *)
Lemma extract_fragments (raw : json) :
  spec.raw_agent_response raw = true ->
  extract dumps raw = ret (spec.extracted_text (spec.fragments dumps raw)).
Proof.
  intros H. apply object_of_inv in H as (d & -> & Hd).
  destruct (field_ok_inv _ _ _ Hd) as [Hnone | (v & Hres & Hv)].
  - unfold extract, extract_artifacts, extract_direct_text, extract_messages,
      extract_status_message, result_of, get_default, dict_get_default, spec.fragments,
      spec.as_object, spec.sub_object.
    by rewrite Hnone.
  - apply object_of_inv in Hv as (r & -> & Hr).
    repeat (apply andb_true_iff in Hr as [Hr ?]).
    unfold extract. rewrite (result_of_present d r Hres).
    cbn [keys]. rewrite !bind_ret.
    rewrite (extract_artifacts_fragments d r Hres) by done. rewrite bind_ret.
    rewrite (extract_direct_text_fragment d r Hres) by done. rewrite bind_ret.
    rewrite (extract_messages_fragments d r Hres) by done. rewrite bind_ret.
    rewrite (extract_status_message_fragments d r Hres) by done. rewrite bind_ret.
    rewrite app_nil_l, <- !map_app, <- !app_assoc.
    rewrite response_text_strings.
    assert (Hsub : spec.sub_object d "result" = r)
      by (unfold spec.sub_object; by rewrite Hres).
    unfold spec.fragments, spec.as_object. by rewrite Hsub.
Qed.

(** C3: when no fragment is found on any recognised path, the extraction
    returns the sentinel "No response from agent", which is not the empty
    string. *)
Theorem no_fragment_gives_sentinel (raw : json) :
  spec.raw_agent_response raw = true ->
  spec.fragments dumps raw = [] ->
  extract dumps raw = ret "No response from agent"
  /\ "No response from agent" <> "".
Proof.
  intros Hok Hnone. rewrite (extract_fragments raw Hok), Hnone. by split.
Qed.

(** C4, as amended: on a response typed as the data model says, where a
    text or data field counts only when its value is not empty and the
    artifacts are those of the result, the extracted text is the
    newline-joined list of the fragments in the order artifact parts
    (text, else labelled data, else text of kind "text"; plain strings
    verbatim), direct text, messages, status message parts, and the
    sentinel when there is none; an artifact text "A" with a direct text
    "B" gives "A", newline, "B". *)
Theorem extract_joins_fragments_in_order (raw : json) :
  spec.raw_agent_response raw = true ->
  extract dumps raw = ret (spec.extracted_text (spec.fragments dumps raw))
  /\ (spec.fragments dumps raw <> [] ->
      extract dumps raw = ret (join nl (spec.fragments dumps raw)))
  /\ extract dumps example.a_then_b_response = ret ("A" +:+ nl +:+ "B").
Proof.
  intros Hok. split; [by apply extract_fragments |]. split; [| reflexivity].
  intros Hsome. rewrite (extract_fragments raw Hok).
  by destruct (spec.fragments dumps raw).
Qed.

Lemma extract_artifact_part_kind_dead (part : json) (texts : list json) :
  extract_artifact_part dumps part texts
  = spec.extract_artifact_part_without_kind dumps part texts.
Proof.
  destruct part as [| | | | s | | d]; try reflexivity. simpl.
  destruct (truthy (dict_get d "text")); [reflexivity |].
  by rewrite andb_false_r.
Qed.

Lemma extract_artifact_kind_dead (artifact : json) (texts : list json) :
  extract_artifact dumps artifact texts
  = spec.extract_artifact_without_kind dumps artifact texts.
Proof.
  unfold extract_artifact, spec.extract_artifact_without_kind.
  destruct (keys artifact) as [e | ks]; [reflexivity |]. rewrite !bind_ret.
  destruct (get artifact "parts") as [e | parts]; [reflexivity |]. rewrite !bind_ret.
  destruct (truthy parts); [| reflexivity].
  destruct (getitem artifact "parts") as [e | ps]; [reflexivity |]. rewrite !bind_ret.
  destruct (iter ps) as [e | l]; [reflexivity |]. rewrite !bind_ret.
  apply for_each_ext, extract_artifact_part_kind_dead.
Qed.

Lemma extract_artifacts_kind_dead (json_content : json) (texts : list json) :
  extract_artifacts dumps json_content texts
  = spec.extract_artifacts_without_kind dumps json_content texts.
Proof.
  unfold extract_artifacts, spec.extract_artifacts_without_kind.
  destruct (result_of json_content) as [e | result]; [reflexivity |]. rewrite !bind_ret.
  destruct (get result "artifacts") as [e | artifacts]; [reflexivity |]. rewrite !bind_ret.
  destruct (truthy artifacts); [| reflexivity].
  destruct (getitem json_content "result") as [e | result']; [reflexivity |]. rewrite !bind_ret.
  destruct (getitem result' "artifacts") as [e | l]; [reflexivity |]. rewrite !bind_ret.
  destruct (len l) as [e | n]; [reflexivity |]. rewrite !bind_ret.
  destruct (iter l) as [e | xs]; [reflexivity |]. rewrite !bind_ret.
  apply for_each_ext, extract_artifact_kind_dead.
Qed.

(** C10: the branch on [kind] cannot be taken: its condition is false
    whenever the first branch was not taken; the extraction without that
    branch equals the implemented one on every input; and writing any
    value to the [kind] field of a part leaves its extraction unchanged. *)
Theorem kind_branch_is_unreachable :
  (forall d : list (string * json),
     negb (truthy (dict_get d "text"))
     && (eq_str (dict_get d "kind") "text" && truthy (dict_get d "text")) = false)
  /\ (forall part texts,
        extract_artifact_part dumps part texts
        = spec.extract_artifact_part_without_kind dumps part texts)
  /\ (forall raw, extract dumps raw = spec.extract_without_kind dumps raw)
  /\ (forall d kind texts,
        extract_artifact_part dumps (JDict (dict_set d "kind" kind)) texts
        = extract_artifact_part dumps (JDict d) texts).
Proof.
  split; [| split; [| split]].
  - intros d. destruct (truthy (dict_get d "text")); [reflexivity |].
    by rewrite andb_false_r.
  - apply extract_artifact_part_kind_dead.
  - intros raw. unfold extract, spec.extract_without_kind.
    destruct (keys raw) as [e | ks]; [reflexivity |]. rewrite !bind_ret.
    destruct (result_of raw) as [e | r]; [reflexivity |]. rewrite !bind_ret.
    by rewrite extract_artifacts_kind_dead.
  - intros d kind texts. rewrite !extract_artifact_part_kind_dead.
    unfold spec.extract_artifact_part_without_kind, getitem, dict_get, dict_get_default.
    by rewrite !dict_lookup_set_other by done.
Qed.

End Extraction.

(** ** The events yielded by [stream] *)

Section Stream.
Import Py agent.

Lemma filter_has_text (ps : list adk.Part) :
  map text_of (List.filter has_text ps) = spec.part_texts ps.
Proof.
  unfold spec.part_texts. induction ps as [| p ps IH]; [reflexivity |].
  cbn [List.filter flat_map]. unfold has_text at 1.
  destruct (adk.text p) as [t |] eqn:Ht; [| exact IH].
  destruct (String.eqb t ""); cbn [negb app map]; [exact IH |].
  unfold text_of at 1. rewrite Ht. by rewrite IH.
Qed.

(** The dict yielded for a final event with at least one part. *)
Lemma stream_event_content (event : adk.Event) (c : adk.Content)
    (p0 : adk.Part) (rest : list adk.Part) :
  adk.is_final_response event = true ->
  adk.content event = Some c ->
  adk.parts c = Some (p0 :: rest) ->
  ((adk.text p0 = None \/ adk.text p0 = Some "") ->
   stream_event event = JDict [ ("is_task_complete", JBool true); ("content", JStr "") ])
  /\ ((exists t, adk.text p0 = Some t /\ t <> "") ->
      stream_event event
      = JDict [ ("is_task_complete", JBool true);
                ("content", JStr (join nl (spec.part_texts (p0 :: rest)))) ]).
Proof.
  intros Hfinal Hc Hp. unfold stream_event, first_part_has_text, parts_of.
  rewrite Hfinal, Hc, Hp. cbn [default].
  split.
  - intros [H | H]; unfold has_text; by rewrite H.
  - intros (t & Ht & Hne).
    assert (Hh : has_text p0 = true).
    { unfold has_text. rewrite Ht. by destruct (String.eqb_spec t ""). }
    rewrite Hh. by rewrite filter_has_text.
Qed.

(** [stream] yields, at the position of each event of the runner, the
    dict of that event. *)
Lemma stream_lookup (run_async : adk.Session -> string -> list adk.Event)
    (sessions : gmap string adk.Session) (query session_id : string)
    (i : nat) (event : adk.Event) :
  run_async (default {| adk.session_id := session_id; adk.state := ∅ |}
               (sessions !! session_id)) query !! i = Some event ->
  (stream run_async sessions query session_id).1 !! i = Some (stream_event event).
Proof.
  assert (Hitems : (stream run_async sessions query session_id).1
                   = map stream_event
                       (run_async (default {| adk.session_id := session_id; adk.state := ∅ |}
                                     (sessions !! session_id)) query)).
  { unfold stream. by destruct (sessions !! session_id). }
  rewrite Hitems. generalize (run_async (default {| adk.session_id := session_id;
                                                    adk.state := ∅ |}
                                           (sessions !! session_id)) query).
  intros events. revert i. induction events as [| e events IH]; intros [| i] H; try done.
  - by injection H as ->.
  - by apply IH.
Qed.

(** C9: in [stream], for every final event of the runner with at least
    one part, the item emitted at its position is marked complete; when
    the first part has no text its content is the empty string whatever
    the later parts hold; when the first part has text its content is the
    newline-joined texts of all parts that have one. *)
Theorem final_event_content (run_async : adk.Session -> string -> list adk.Event)
    (sessions : gmap string adk.Session) (query session_id : string)
    (i : nat) (event : adk.Event) (c : adk.Content)
    (p0 : adk.Part) (rest : list adk.Part) :
  run_async (default {| adk.session_id := session_id; adk.state := ∅ |}
               (sessions !! session_id)) query !! i = Some event ->
  adk.is_final_response event = true ->
  adk.content event = Some c ->
  adk.parts c = Some (p0 :: rest) ->
  ((adk.text p0 = None \/ adk.text p0 = Some "") ->
   (stream run_async sessions query session_id).1 !! i
   = Some (JDict [ ("is_task_complete", JBool true); ("content", JStr "") ]))
  /\ ((exists t, adk.text p0 = Some t /\ t <> "") ->
      (stream run_async sessions query session_id).1 !! i
      = Some (JDict [ ("is_task_complete", JBool true);
                      ("content", JStr (join nl (spec.part_texts (p0 :: rest)))) ])).
Proof.
  intros Hi Hfinal Hc Hp.
  rewrite (stream_lookup run_async sessions query session_id i event Hi).
  destruct (stream_event_content event c p0 rest Hfinal Hc Hp) as [Hnone Hsome].
  split; intros H; [by rewrite (Hnone H) | by rewrite (Hsome H)].
Qed.

End Stream.

(** ** Task and context identifiers *)

Section Identifiers.
Import Py agent.

Variable exn_str : exn -> string.
Variable uuid4 : nat -> string.
Variable dumps : json -> string.

(** A delegation never writes the state of the tool context; when the
    state holds no [task_id] and no [context_id], the request carries the
    next three identifiers of the generator. *)
Lemma delegate_draws_identifiers (client : a2a.RemoteAgentConnections)
    (agent_name task : string) (state : gmap string json) (w : world) :
  state !! "task_id" = None ->
  state !! "context_id" = None ->
  let n := uuid_calls w in
  let '(_, state', w') := delegate exn_str uuid4 ret dumps client agent_name task state w in
  state' = state
  /\ uuid_calls w' = S (S (S n))
  /\ delegations w'
     = delegations w
       ++ [ (agent_name,
             {| a2a.id := uuid4 (S (S n));
                a2a.params := payload task (uuid4 (S (S n)))
                                (JStr (uuid4 n)) (JStr (uuid4 (S n))) |}) ].
Proof.
  intros Ht Hc. unfold delegate, send_try, state_get. rewrite Ht, Hc. simpl.
  by destruct (a2a.send_message client _) as [e | [| [| raw]]].
Qed.

End Identifiers.

(** C2 on the code: two delegations of one session, whose state starts
    empty, carry different task identifiers and different context
    identifiers; six identifiers are drawn and the state stays empty. *)
Theorem second_delegation_draws_new_identifiers :
  map (example.message_field "taskId") (agent.delegations example.two_turns.2)
  = [ Py.JStr "uuid-0"; Py.JStr "uuid-3" ]
  /\ map (example.message_field "contextId") (agent.delegations example.two_turns.2)
     = [ Py.JStr "uuid-1"; Py.JStr "uuid-4" ]
  /\ agent.uuid_calls example.two_turns.2 = 6
  /\ example.two_turns.1 = ∅.
Proof. vm_compute. repeat split. Qed.

(** ** The properties at concrete inputs *)

Section Instances.
Import Py.

Lemma verify_response_fails_open_unreachable :
  spec.generation_or_parsing_fails example.getenv example.unreachable_Client
    example.loads_rejects "what documents do I need" "You need a certificate." "imports" None
  /\ (verification_agent.verify_response example.getenv example.unreachable_Client
        example.loads_rejects "what documents do I need" "You need a certificate." "imports"
        None).1
     = ret verification_agent.safe_defaults.
Proof.
  assert (H : spec.generation_or_parsing_fails example.getenv example.unreachable_Client
                example.loads_rejects "what documents do I need" "You need a certificate."
                "imports" None) by exact I.
  split; [exact H |].
  exact (proj1 (proj2 (verify_response_fails_open example.getenv example.unreachable_Client
                         example.loads_rejects _ _ _ None)) H).
Defined.

(** A text that cannot be parsed fails open as well. *)
Example verify_response_fails_open_unparsable :
  (verification_agent.verify_response example.getenv example.answering_Client
     example.loads_rejects "q" "a" "invoices" None).1
  = ret verification_agent.safe_defaults.
Proof. reflexivity. Qed.

Lemma status_relevant_on_verified_answer :
  (verification_agent.verify_try example.getenv example.answering_Client
     example.loads_verdict "q" "a" "imports" None).1 = ret example.verified_answer
  /\ exists verdict,
       getitem example.verified_answer "verification" = ret (JDict verdict)
       /\ dict_lookup verdict "status" = Some (JStr "relevant").
Proof.
  assert (H : (verification_agent.verify_try example.getenv example.answering_Client
                 example.loads_verdict "q" "a" "imports" None).1
              = ret example.verified_answer) by reflexivity.
  split; [exact H |].
  destruct (status_relevant_iff_relevant_and_safe _ _ _ _ _ _ _ _ H)
    as (verdict & Hv & _ & Hiff & _).
  exists verdict. split; [exact Hv |].
  injection Hv as <-. apply Hiff. split; reflexivity.
Defined.

Lemma exact_name_beats_earlier_partial_match :
  In "Invoices_Agent" (map fst example.shadowed_directory)
  /\ agent.find_partial example.lower "Invoices_Agent" (map fst example.shadowed_directory)
     = Some "Invoices_Agent_v2"
  /\ agent.resolve example.lower example.shadowed_directory "Invoices_Agent"
     = inr "Invoices_Agent".
Proof.
  assert (H : In "Invoices_Agent" (map fst example.shadowed_directory))
    by (right; left; reflexivity).
  split; [exact H |]. split; [reflexivity |].
  exact (proj1 (exact_name_takes_precedence example.lower example.exn_str example.uuid4
                  example.model_validate example.dumps example.shadowed_directory
                  "Invoices_Agent" "total of invoice 12" ∅ example.fresh_world H)).
Defined.

Lemma unknown_agent_is_reported :
  ~ In "Weather_Agent" (map fst example.directory)
  /\ example.send_message example.directory "Weather_Agent" "forecast" ∅ example.fresh_world
     = (ret "Error: Agent 'Weather_Agent' not found. Available agents: Imports_Agent, Invoices_Agent",
        ∅, example.fresh_world).
Proof.
  assert (H : ~ In "Weather_Agent" (map fst example.directory)).
  { intros [H | [H | []]]; discriminate H. }
  split; [exact H |].
  apply (proj2 (proj2 (partial_match_resolution example.lower example.exn_str example.uuid4
                         example.model_validate example.dumps example.directory
                         "Weather_Agent" "forecast" ∅ example.fresh_world H))).
  repeat constructor.
Defined.

(** End-to-end scenario 3 on the code: neither lower-cased name contains
    the other, so the request is not delegated. *)
Example invoicebot_is_not_matched :
  example.send_message [ ("Invoices_Agent", Some example.answering_agent) ]
    "InvoiceBot" "total of invoice 12" ∅ example.fresh_world
  = (ret "Error: Agent 'InvoiceBot' not found. Available agents: Invoices_Agent",
     ∅, example.fresh_world).
Proof. reflexivity. Qed.

(** A partial match in either direction is delegated. *)
Example partial_names_are_matched :
  agent.resolve example.lower example.directory "invoices" = inr "Invoices_Agent"
  /\ agent.resolve example.lower example.directory "The Imports_Agent please"
     = inr "Imports_Agent".
Proof. split; reflexivity. Qed.

Lemma unreachable_agent_is_reported :
  exists msg,
    (example.send_message example.directory "Invoices_Agent" "total of invoice 12" ∅
       example.fresh_world).1.1 = ret msg
    /\ msg = "Error communicating with Invoices_Agent: All connection attempts failed"
    /\ contains msg "Invoices_Agent" = true.
Proof.
  destruct (failed_delegation_returns_error example.lower example.exn_str example.uuid4
              example.model_validate example.dumps example.directory
              "Invoices_Agent" "total of invoice 12" ∅ example.fresh_world
              "Invoices_Agent" example.unreachable_agent eq_refl eq_refl I)
    as (msg & Hmsg & _ & Hin).
  exists msg. split; [exact Hmsg |]. split; [| exact Hin].
  injection Hmsg as <-. reflexivity.
Defined.

Lemma no_text_response_gives_sentinel :
  spec.raw_agent_response example.no_text_response = true
  /\ spec.fragments example.dumps example.no_text_response = []
  /\ agent.extract example.dumps example.no_text_response = ret "No response from agent".
Proof.
  split; [reflexivity |]. split; [reflexivity |].
  exact (proj1 (no_fragment_gives_sentinel example.dumps example.no_text_response
                  eq_refl eq_refl)).
Defined.

(** An empty plain-string part is a fragment of its own: the extracted
    text is then the empty string, not the sentinel. *)
Example empty_string_part_is_extracted :
  spec.fragments example.dumps example.empty_string_part_response = [ "" ]
  /\ agent.extract example.dumps example.empty_string_part_response = ret "".
Proof. split; reflexivity. Qed.

Lemma certificate_response_is_extracted :
  spec.raw_agent_response example.certificate_response = true
  /\ agent.extract example.dumps example.certificate_response
     = ret "You need a certificate of origin.".
Proof.
  split; [reflexivity |].
  exact (proj1 (extract_joins_fragments_in_order example.dumps example.certificate_response
                  eq_refl)).
Defined.

(** End-to-end scenario 1 up to the verification: the answer of the
    imports agent reaches the caller as text. *)
Example imports_answer_is_returned :
  (example.send_message example.directory "Imports_Agent"
     "what documents do I need to import goods" ∅ example.fresh_world).1.1
  = ret "You need a certificate of origin.".
Proof. reflexivity. Qed.

(** Artifacts are read under [result]; a list of artifacts at the top
    level of the response is not looked at. *)
Example top_level_artifacts_are_not_read :
  agent.extract example.dumps
    (JDict [ ("artifacts",
              JList [ JDict [ ("parts", JList [ JDict [ ("text", JStr "A") ] ]) ] ]);
             ("result", JDict [ ("text", JStr "B") ]) ])
  = ret "B".
Proof. reflexivity. Qed.

Lemma late_text_is_dropped :
  (agent.stream example.run_async ∅ "what documents do I need" "session-1").1 !! 1%nat
  = Some (JDict [ ("is_task_complete", JBool true); ("content", JStr "") ]).
Proof.
  exact (proj1 (final_event_content example.run_async ∅ "what documents do I need"
                  "session-1" 1 example.late_text_event _ _ _
                  eq_refl eq_refl eq_refl eq_refl)
           (or_introl eq_refl)).
Defined.

(** The whole stream of that run: the progress item, then the complete
    item with empty content. *)
Example late_text_stream :
  (agent.stream example.run_async ∅ "what documents do I need" "session-1").1
  = [ JDict [ ("is_task_complete", JBool false);
              ("updates", JStr "The orchestrator agent is processing your query...") ];
      JDict [ ("is_task_complete", JBool true); ("content", JStr "") ] ].
Proof. reflexivity. Qed.

(** The extraction against section 4.4 as it is written: a part whose
    text is present and empty is passed over by the code, where the
    written order takes it as a fragment. *)
Lemma empty_text_field_is_skipped :
  spec.raw_agent_response example.empty_text_response = true
  /\ spec.fragments_as_written example.dumps example.empty_text_response = [ ""; "B" ]
  /\ agent.extract example.dumps example.empty_text_response = ret "B"
  /\ agent.extract example.dumps example.empty_text_response
     <> ret (spec.extracted_text
               (spec.fragments_as_written example.dumps example.empty_text_response)).
Proof.
  split; [reflexivity |]. split; [reflexivity |]. split; [reflexivity |].
  intros H. discriminate H.
Qed.

(** Likewise for data that is present and empty: the written order gives
    the labelled rendering, the code the sentinel. *)
Example empty_data_field_is_skipped :
  spec.raw_agent_response example.empty_data_response = true
  /\ spec.fragments_as_written example.dumps example.empty_data_response
     = [ spec.data_label +:+ "{}" ]
  /\ agent.extract example.dumps example.empty_data_response
     = ret "No response from agent".
Proof. repeat split. Qed.

End Instances.

(** * Part V: further properties of the code *)

(** ** The verification client and the verdict *)

Section VerificationClient.
Import Py verification_agent.

Variable getenv : string -> option string.
Variable new_Client : option string -> string -> py Client.
Variable loads : string -> py json.

Lemma verify_response_global (q a t : string) (global : option Client) :
  (verify_response getenv new_Client loads q a t global).2
  = (get_verification_client getenv new_Client global).2.
Proof.
  unfold verify_response, verify_try.
  by destruct (get_verification_client getenv new_Client global) as [[e | c] g].
Qed.

(** X1: once a verification has built the client, later verifications use
    that client and never call the constructor: their outcome is the same
    for every constructor. *)
Theorem client_is_built_once (q a t q' a' t' : string) (c : Client)
    (new_Client1 new_Client2 : option string -> string -> py Client) :
  new_Client (getenv "GOOGLE_CLOUD_PROJECT")
    (getenv_default getenv "GOOGLE_CLOUD_LOCATION" "us-central1") = ret c ->
  let global := (verify_response getenv new_Client loads q a t None).2 in
  global = Some c
  /\ verify_response getenv new_Client1 loads q' a' t' global
     = verify_response getenv new_Client2 loads q' a' t' global
  /\ (verify_response getenv new_Client1 loads q' a' t' global).2 = Some c.
Proof.
  intros Hnew global.
  assert (Hg : global = Some c).
  { subst global. rewrite verify_response_global. simpl. unfold ret in Hnew. by rewrite Hnew. }
  rewrite Hg. repeat split.
Qed.

(** X2: a client that could not be built is not remembered: the call
    fails open, the global stays unset, and the next call tries the
    constructor again. *)
Theorem failed_client_is_not_cached (q a t : string) (e : exn) :
  new_Client (getenv "GOOGLE_CLOUD_PROJECT")
    (getenv_default getenv "GOOGLE_CLOUD_LOCATION" "us-central1") = raise e ->
  verify_response getenv new_Client loads q a t None = (ret safe_defaults, None).
Proof.
  intros Hnew. unfold verify_response, verify_try, get_verification_client.
  unfold raise in Hnew. by rewrite Hnew.
Qed.

(** X3: a generated text that parses to JSON which is not an object (a
    list, a string, a number, null) fails open like a parse error. *)
Theorem non_object_verdict_fails_open (q a t : string) (global : option Client)
    (text : option string) (v : json) :
  spec.generation_call getenv new_Client q a t global = ret text ->
  loads_text loads text = ret v ->
  (forall d, v <> JDict d) ->
  (verify_response getenv new_Client loads q a t global).1 = ret safe_defaults.
Proof.
  intros Hgen Hparse Hnot. rewrite verify_response_unfold.
  unfold ret in Hgen, Hparse. rewrite Hgen. cbn [bind]. rewrite Hparse. cbn [bind].
  by rewrite (add_compatibility_fields_not_dict v Hnot).
Qed.

(** The verdict computed from a parsed object, field by field. *)
Lemma parsed_verdict (d : list (string * json)) :
  exists verdict,
    add_compatibility_fields (JDict d) = ret (JDict verdict)
    /\ dict_lookup verdict "security_alert"
       = Some (JBool (negb (truthy (dict_get_default d "is_safe" (JBool true)))))
    /\ dict_lookup verdict "status"
       = Some (JStr (if truthy (dict_get d "is_relevant") && truthy (dict_get d "is_safe")
                     then "relevant" else "security_risk"))
    /\ dict_lookup verdict "emoji"
       = Some (JStr (if negb (truthy (dict_get d "is_safe")) then "🚨"
                     else if negb (truthy (dict_get d "is_relevant")) then "⚠️"
                     else "✅"))
    /\ (forall k, k <> "security_alert" -> k <> "status" -> k <> "emoji" ->
        dict_lookup verdict k = dict_lookup d k).
Proof.
  unfold add_compatibility_fields, get, get_default, setitem, bind, ret, dict_get.
  rewrite !dict_get_default_set_other by done.
  set (rel := dict_get_default d "is_relevant" JNull).
  set (safe := dict_get_default d "is_safe" JNull).
  assert (Hboth : truthy (if truthy rel then safe else rel) = truthy rel && truthy safe)
    by (by destruct (truthy rel) eqn:Hr).
  destruct (truthy rel) eqn:Hrel; rewrite ?dict_get_default_set_other by done;
    fold safe; fold rel; rewrite ?Hrel; destruct (truthy safe) eqn:Hsafe; cbn [negb andb];
    rewrite ?Hrel; cbn [negb];
    (eexists; split; [reflexivity |]; split; [| split; [| split]];
     [ by rewrite !dict_lookup_set_other, dict_lookup_set_same by done
     | by rewrite dict_lookup_set_other, dict_lookup_set_same by done
     | by rewrite dict_lookup_set_same
     | intros k H1 H2 H3; by rewrite !dict_lookup_set_other by done ]).
Qed.

Lemma verify_response_parsed (q a t : string) (global : option Client)
    (text : option string) (d : list (string * json)) :
  spec.generation_call getenv new_Client q a t global = ret text ->
  loads_text loads text = ret (JDict d) ->
  (verify_response getenv new_Client loads q a t global).1
  = bind (add_compatibility_fields (JDict d)) (fun result =>
    ret (JDict [ ("status", JStr "success"); ("verification", result) ])).
Proof.
  intros Hgen Hparse. rewrite verify_response_unfold.
  unfold ret in Hgen, Hparse. rewrite Hgen. cbn [bind]. rewrite Hparse. cbn [bind].
  destruct (parsed_verdict d) as (verdict & -> & _). reflexivity.
Qed.

(** X4: whatever happens, the caller receives an object whose outer status
    is "success" and whose verification carries a boolean security alert,
    a status that is "relevant" or "security_risk", and one of the three
    emojis: a fail-open result has the shape of a genuine one. *)
Theorem verify_response_shape (q a t : string) (global : option Client) :
  exists verdict alert status emoji,
    (verify_response getenv new_Client loads q a t global).1
    = ret (JDict [ ("status", JStr "success"); ("verification", JDict verdict) ])
    /\ dict_lookup verdict "security_alert" = Some (JBool alert)
    /\ dict_lookup verdict "status" = Some (JStr status)
    /\ dict_lookup verdict "emoji" = Some (JStr emoji)
    /\ (status = "relevant" \/ status = "security_risk")
    /\ (emoji = "✅" \/ emoji = "⚠️" \/ emoji = "🚨").
Proof.
  rewrite verify_response_unfold.
  destruct (spec.generation_call getenv new_Client q a t global) as [e | text];
    [by eexists _, _, _, _; repeat split; eauto |].
  cbn [bind]. destruct (loads_text loads text) as [e | v];
    [by eexists _, _, _, _; repeat split; eauto |].
  cbn [bind]. destruct v as [| | | | | | d];
    try (by eexists _, _, _, _; repeat split; eauto).
  destruct (parsed_verdict d) as (verdict & -> & Ha & Hs & He & _).
  eexists verdict, _, _, _. cbn [bind try_except ret].
  split; [reflexivity |]. split; [exact Ha |]. split; [exact Hs |]. split; [exact He |].
  split.
  - destruct (_ && _); auto.
  - destruct (truthy (dict_get d "is_safe")), (truthy (dict_get d "is_relevant"));
      cbn [negb]; tauto.
Qed.

(** X5: every field of the parsed object other than [security_alert],
    [status] and [emoji] reaches the caller unchanged. *)
Theorem verdict_fields_pass_through (q a t : string) (global : option Client)
    (text : option string) (d : list (string * json)) :
  spec.generation_call getenv new_Client q a t global = ret text ->
  loads_text loads text = ret (JDict d) ->
  exists verdict,
    (verify_response getenv new_Client loads q a t global).1
    = ret (JDict [ ("status", JStr "success"); ("verification", JDict verdict) ])
    /\ forall k, k <> "security_alert" -> k <> "status" -> k <> "emoji" ->
       dict_lookup verdict k = dict_lookup d k.
Proof.
  intros Hgen Hparse. rewrite (verify_response_parsed q a t global text d Hgen Hparse).
  destruct (parsed_verdict d) as (verdict & -> & _ & _ & _ & Hk).
  exists verdict. split; [reflexivity | exact Hk].
Qed.

(** X6: in a verdict computed from a parsed object, the emoji is the check
    mark exactly when the status is "relevant", the siren exactly when
    [is_safe] does not hold, and the warning sign exactly when [is_safe]
    holds and [is_relevant] does not. *)
Theorem emoji_follows_verdict (q a t : string) (global : option Client)
    (text : option string) (d : list (string * json)) :
  spec.generation_call getenv new_Client q a t global = ret text ->
  loads_text loads text = ret (JDict d) ->
  exists verdict,
    (verify_response getenv new_Client loads q a t global).1
    = ret (JDict [ ("status", JStr "success"); ("verification", JDict verdict) ])
    /\ (dict_lookup verdict "emoji" = Some (JStr "✅")
        <-> dict_lookup verdict "status" = Some (JStr "relevant"))
    /\ (dict_lookup verdict "emoji" = Some (JStr "🚨")
        <-> truthy (dict_get d "is_safe") = false)
    /\ (dict_lookup verdict "emoji" = Some (JStr "⚠️")
        <-> truthy (dict_get d "is_safe") = true /\ truthy (dict_get d "is_relevant") = false).
Proof.
  intros Hgen Hparse. rewrite (verify_response_parsed q a t global text d Hgen Hparse).
  destruct (parsed_verdict d) as (verdict & -> & _ & Hs & He & _).
  exists verdict. split; [reflexivity |]. rewrite Hs, He.
  destruct (truthy (dict_get d "is_relevant")), (truthy (dict_get d "is_safe"));
    cbn [negb andb]; repeat split; intros; try discriminate; intuition congruence.
Qed.

(** X7: a raised security alert always comes with the status
    "security_risk"; the converse fails when the parsed object has no
    [is_safe] field: the alert is then off although the status is
    "security_risk" and the emoji is the siren. *)
Theorem security_alert_and_status (q a t : string) (global : option Client)
    (text : option string) (d : list (string * json)) :
  spec.generation_call getenv new_Client q a t global = ret text ->
  loads_text loads text = ret (JDict d) ->
  exists verdict,
    (verify_response getenv new_Client loads q a t global).1
    = ret (JDict [ ("status", JStr "success"); ("verification", JDict verdict) ])
    /\ (dict_lookup verdict "security_alert" = Some (JBool true) ->
        dict_lookup verdict "status" = Some (JStr "security_risk"))
    /\ (dict_lookup d "is_safe" = None ->
        dict_lookup verdict "security_alert" = Some (JBool false)
        /\ dict_lookup verdict "status" = Some (JStr "security_risk")
        /\ dict_lookup verdict "emoji" = Some (JStr "🚨")).
Proof.
  intros Hgen Hparse. rewrite (verify_response_parsed q a t global text d Hgen Hparse).
  destruct (parsed_verdict d) as (verdict & -> & Ha & Hs & He & _).
  exists verdict. split; [reflexivity |]. rewrite Ha, Hs, He.
  unfold dict_get, dict_get_default. split.
  - destruct (dict_lookup d "is_safe") as [s |]; [| discriminate].
    destruct (truthy s); [discriminate |]. intros _. by rewrite andb_false_r.
  - intros ->. cbn [truthy negb]. by rewrite andb_false_r.
Qed.

End VerificationClient.

(** ** What a call of [send_message] does to its surroundings *)

Section DelegationFrame.
Import Py agent.

Variable lower : string -> string.
Variable exn_str : exn -> string.
Variable uuid4 : nat -> string.
Variable model_validate : json -> py json.
Variable dumps : json -> string.

Lemma contains_empty (s : string) : contains s "" = true.
Proof. apply contains_spec. by exists "", s. Qed.

Lemma item_key {V} (d : list (string * V)) (k : string) (v : V) :
  item d k = Some v -> In k (map fst d).
Proof.
  induction d as [| [k' v'] d IH]; simpl; [done |].
  destruct (String.eqb_spec k' k); [by left | right; by apply IH].
Qed.

(** X8: a call returns a string and never raises; it leaves the state of
    the tool context as it was; either the world is untouched, or three
    identifiers were drawn and at most one request was appended to those
    sent before, addressed to the resolved key of the directory and
    carrying the third identifier as its id. *)
Theorem send_message_frame (conns : connections) (agent_name task : string)
    (state : gmap string json) (w : world) :
  exists msg w',
    send_message lower exn_str uuid4 model_validate dumps conns agent_name task state w
    = (ret msg, state, w')
    /\ (w' = w
        \/ (uuid_calls w' = S (S (S (uuid_calls w)))
            /\ (delegations w' = delegations w
                \/ exists resolved params,
                     resolve lower conns agent_name = inr resolved
                     /\ In resolved (map fst conns)
                     /\ delegations w'
                        = delegations w
                          ++ [ (resolved, {| a2a.id := uuid4 (S (S (uuid_calls w)));
                                             a2a.params := params |}) ]))).
Proof.
  unfold send_message.
  destruct (resolve lower conns agent_name) as [err | resolved] eqn:Hr.
  { eexists _, _. split; [reflexivity | by left]. }
  destruct (resolve_key lower _ _ _ Hr) as [[client |] Hitem]; rewrite Hitem.
  2: { eexists _, _. split; [reflexivity | by left]. }
  assert (Hin : In resolved (map fst conns)) by (by apply (item_key conns resolved _ Hitem)).
  unfold delegate, send_try.
  destruct (model_validate _) as [e | params].
  - eexists _, _. split; [reflexivity |]. right. split; [reflexivity |]. by left.
  - destruct (a2a.send_message client _) as [e | [| [| raw]]];
      try (eexists _, _; split; [reflexivity |]; right; split; [reflexivity |];
           right; by exists resolved, params).
    destruct (try_except_returns (extract dumps raw)
                (fun e => "Error communicating with " +:+ resolved +:+ ": " +:+ exn_str e))
      as [msg Hmsg].
    cbn [fst snd]. unfold ret in *. rewrite Hmsg.
    eexists _, _. split; [reflexivity |]. right. split; [reflexivity |].
    right. by exists resolved, params.
Qed.

(** X9: an empty requested name is never reported as not found while the
    directory has an agent: the empty string is contained in every name,
    so the first agent of the directory is taken. *)
Theorem empty_name_takes_first_agent (first : string)
    (entry : option a2a.RemoteAgentConnections) (others : connections) :
  lower "" = "" ->
  ~ In "" (map fst ((first, entry) :: others)) ->
  resolve lower ((first, entry) :: others) "" = inr first.
Proof.
  intros Hlower Hnot. unfold resolve.
  destruct (has_key ((first, entry) :: others) "") eqn:Hk;
    [by apply has_key_In in Hk |].
  cbn [map fst find_partial]. unfold partial_match. by rewrite Hlower, contains_empty.
Qed.

(** X10: the partial match does not see case: two requested names with
    the same lower-cased form, neither of them a key, are resolved to the
    same agent, or both to none. *)
Theorem partial_match_ignores_case (conns : connections) (name1 name2 : string) :
  lower name1 = lower name2 ->
  ~ In name1 (map fst conns) ->
  ~ In name2 (map fst conns) ->
  (forall card_name,
     resolve lower conns name1 = inr card_name <-> resolve lower conns name2 = inr card_name)
  /\ ((exists err, resolve lower conns name1 = inl err)
      <-> (exists err, resolve lower conns name2 = inl err)).
Proof.
  intros Hl H1 H2.
  assert (Hf : find_partial lower name1 (map fst conns)
               = find_partial lower name2 (map fst conns)).
  { clear H1 H2. induction (map fst conns) as [| k ks IH]; [reflexivity |].
    simpl. unfold partial_match. rewrite Hl.
    destruct (_ || _); [reflexivity | apply IH]. }
  unfold resolve.
  destruct (has_key conns name1) eqn:Hk1; [by apply has_key_In in Hk1 |].
  destruct (has_key conns name2) eqn:Hk2; [by apply has_key_In in Hk2 |].
  rewrite Hf. destruct (find_partial lower name2 (map fst conns)) as [k |].
  - split; [done |]. split; intros [err H]; discriminate H.
  - split; [intros card_name; split; intros H; discriminate H |].
    split; intros _; eauto.
Qed.

(** X11: when the state of the tool context holds [task_id] and
    [context_id], the payload handed to the validation carries these
    values as they are; three identifiers are drawn all the same, and only
    the third is used, as the message id.  When the validation accepts,
    one request with the validated parameters is sent; when it rejects,
    nothing is sent and the caller receives the error string. *)
Theorem stored_identifiers_are_sent (client : a2a.RemoteAgentConnections)
    (agent_name task : string) (state : gmap string json) (w : world)
    (task_id context_id : json) :
  state !! "task_id" = Some task_id ->
  state !! "context_id" = Some context_id ->
  let '(r, _, w') :=
    delegate exn_str uuid4 model_validate dumps client agent_name task state w in
  uuid_calls w' = S (S (S (uuid_calls w)))
  /\ match model_validate
             (payload task (uuid4 (S (S (uuid_calls w)))) task_id context_id) with
     | inr params =>
         delegations w'
         = delegations w
           ++ [ (agent_name,
                 {| a2a.id := uuid4 (S (S (uuid_calls w))); a2a.params := params |}) ]
     | inl e =>
         delegations w' = delegations w
         /\ r = ret ("Error communicating with " +:+ agent_name +:+ ": " +:+ exn_str e)
     end.
Proof.
  intros Ht Hc. unfold delegate, send_try, state_get. rewrite Ht, Hc. cbn [default].
  destruct (model_validate _) as [e | params]; [by repeat split |].
  by destruct (a2a.send_message client _) as [e | [| [| raw]]].
Qed.

(** X12: when the agent answers with a task from which the extraction
    raises, the caller receives the communication error string with the
    text of the exception. *)
Theorem failed_extraction_returns_error (conns : connections) (agent_name task : string)
    (state : gmap string json) (w : world)
    (resolved : string) (client : a2a.RemoteAgentConnections) (params raw : json) (e : exn) :
  resolve lower conns agent_name = inr resolved ->
  item conns resolved = Some (Some client) ->
  model_validate
    (payload task (uuid4 (S (S (uuid_calls w))))
       (state_get state "task_id" (JStr (uuid4 (uuid_calls w))))
       (state_get state "context_id" (JStr (uuid4 (S (uuid_calls w)))))) = ret params ->
  a2a.send_message client
    {| a2a.id := uuid4 (S (S (uuid_calls w))); a2a.params := params |}
  = ret (a2a.SendMessageSuccessResponse (a2a.Task raw)) ->
  extract dumps raw = raise e ->
  (send_message lower exn_str uuid4 model_validate dumps conns agent_name task state w).1.1
  = ret ("Error communicating with " +:+ resolved +:+ ": " +:+ exn_str e).
Proof.
  intros Hr Hitem Hvalid Hsend Hex.
  rewrite (answered_delegation_returns_extract lower exn_str uuid4 model_validate dumps
             conns agent_name task state w resolved client params raw Hr Hitem Hvalid Hsend).
  unfold raise in Hex. by rewrite Hex.
Qed.

End DelegationFrame.

(** ** More on the extraction *)

Section ExtractionMore.
Import Py agent.

Variable dumps : json -> string.

Lemma join_cons_nonempty (sep s : string) (rest : list string) :
  s <> "" -> join sep (s :: rest) <> "".
Proof.
  intros Hs. destruct s as [| c s]; [done |].
  destruct rest as [| t rest]; [done |].
  change (join sep (String c s :: t :: rest))
    with (String c s +:+ sep +:+ join sep (t :: rest)).
  by rewrite string_app_cons.
Qed.

Lemma substring_of_refl (s : string) : spec.substring_of s s.
Proof. exists "", "". by rewrite string_app_nil_r. Qed.

(** Every element of a joined list occurs in the result. *)
Lemma join_contains (sep f : string) (l : list string) :
  In f l -> spec.substring_of f (join sep l).
Proof.
  induction l as [| x [| y rest] IH]; [done | |].
  - intros [-> | []]. apply substring_of_refl.
  - change (join sep (x :: y :: rest)) with (x +:+ sep +:+ join sep (y :: rest)).
    intros [-> | Hin].
    + exists "", (sep +:+ join sep (y :: rest)). reflexivity.
    + destruct (IH Hin) as (before & after & ->).
      exists (x +:+ sep +:+ before), after. by rewrite !string_app_assoc.
Qed.

Lemma text_field_nonempty (d : list (string * json)) (t : string) :
  spec.text_field d = Some t -> t <> "".
Proof.
  unfold spec.text_field, spec.present.
  destruct (dict_lookup d "text") as [v |]; [| done].
  destruct (truthy v) eqn:Hv; [| done].
  destruct v; try done. intros [= <-]. simpl in Hv. by destruct s.
Qed.

Lemma entry_fragment_nonempty (p : json) :
  Forall (fun f => f <> "") (spec.entry_fragment p).
Proof.
  destruct p as [| | | | | | d]; simpl; try constructor.
  destruct (spec.text_field d) as [t |] eqn:Ht; repeat constructor.
  by apply (text_field_nonempty d).
Qed.

Lemma part_fragment_nonempty (p : json) :
  p <> JStr "" -> Forall (fun f => f <> "") (spec.part_fragment dumps p).
Proof.
  intros Hp. destruct p as [| | | | s | | d]; simpl; try constructor.
  - congruence.
  - constructor.
  - destruct (spec.text_field d) as [t |] eqn:Ht.
    + repeat constructor. by apply (text_field_nonempty d).
    + destruct (spec.present d "data"); [repeat constructor; done |].
      destruct (eq_str _ _); constructor.
Qed.

Lemma Forall_flat_map {A B} (P : B -> Prop) (f : A -> list B) (l : list A) :
  (forall x, In x l -> Forall P (f x)) -> Forall P (flat_map f l).
Proof.
  induction l as [| x l IH]; simpl; intros H; [constructor |].
  apply Forall_app. split; [apply H; by left | apply IH; intros y Hy; apply H; by right].
Qed.

(** X13: on a well-typed response none of whose artifact parts is the
    empty plain string, the extracted text is not empty. *)
Theorem extracted_text_is_not_empty (raw : json) :
  spec.raw_agent_response raw = true ->
  (forall artifact,
     In artifact (spec.sub_list (spec.sub_object (spec.as_object raw) "result") "artifacts") ->
     ~ In (JStr "") (spec.sub_list (spec.as_object artifact) "parts")) ->
  exists text, extract dumps raw = ret text /\ text <> "".
Proof.
  intros Hok Hparts. rewrite (extract_fragments dumps raw Hok).
  eexists. split; [reflexivity |].
  assert (Hne : Forall (fun f => f <> "") (spec.fragments dumps raw)).
  { unfold spec.fragments. repeat (apply Forall_app; split).
    - apply Forall_flat_map. intros artifact Ha.
      apply Forall_flat_map. intros p Hp. apply part_fragment_nonempty.
      intros ->. by apply (Hparts artifact Ha).
    - destruct (spec.text_field _) as [t |] eqn:Ht; repeat constructor.
      by apply (text_field_nonempty _ _ Ht).
    - apply Forall_flat_map. intros p _. apply entry_fragment_nonempty.
    - apply Forall_flat_map. intros p _. apply entry_fragment_nonempty. }
  destruct (spec.fragments dumps raw) as [| f rest]; [done |].
  apply join_cons_nonempty. by inversion Hne.
Qed.

(** X14: on a well-typed response no fragment is lost: each one occurs in
    the extracted text. *)
Theorem every_fragment_is_extracted (raw : json) (f : string) :
  spec.raw_agent_response raw = true ->
  In f (spec.fragments dumps raw) ->
  exists text, extract dumps raw = ret text /\ contains text f = true.
Proof.
  intros Hok Hin. rewrite (extract_fragments dumps raw Hok).
  eexists. split; [reflexivity |]. apply contains_spec.
  destruct (spec.fragments dumps raw) as [| x rest] eqn:Hf; [done |].
  by apply join_contains.
Qed.

(** The extraction reads the response only through its [result], and the
    result only through four fields. *)
Lemma extract_reads_four_fields (d d' r r' : list (string * json)) :
  dict_lookup d "result" = Some (JDict r) ->
  dict_lookup d' "result" = Some (JDict r') ->
  dict_lookup r "artifacts" = dict_lookup r' "artifacts" ->
  dict_lookup r "text" = dict_lookup r' "text" ->
  dict_lookup r "messages" = dict_lookup r' "messages" ->
  dict_lookup r "status" = dict_lookup r' "status" ->
  extract dumps (JDict d) = extract dumps (JDict d').
Proof.
  intros Hd Hd' Ha Ht Hm Hs.
  unfold extract, extract_artifacts, extract_direct_text, extract_messages,
    extract_status_message, result_of, keys, get, get_default, getitem, dict_get_default.
  rewrite Hd, Hd'. cbn [bind ret]. by rewrite Ha, Ht, Hm, Hs.
Qed.

(** X15: fields that are not on a recognised path do not matter: writing
    any value to a top-level field other than [result], or to a field of
    the result other than [artifacts], [text], [messages] and [status],
    leaves the outcome of the extraction unchanged. *)
Theorem unrecognised_fields_are_ignored (d r : list (string * json)) (k : string) (v : json) :
  dict_lookup d "result" = Some (JDict r) ->
  (k <> "result" -> extract dumps (JDict (dict_set d k v)) = extract dumps (JDict d))
  /\ (k <> "artifacts" -> k <> "text" -> k <> "messages" -> k <> "status" ->
      extract dumps (JDict (dict_set d "result" (JDict (dict_set r k v))))
      = extract dumps (JDict d)).
Proof.
  intros Hd. split.
  - intros Hk. apply (extract_reads_four_fields _ _ r r); try done.
    by rewrite dict_lookup_set_other.
  - intros H1 H2 H3 H4.
    apply (extract_reads_four_fields _ _ (dict_set r k v) r); try done;
      [apply dict_lookup_set_same | by apply dict_lookup_set_other ..].
Qed.

Lemma all_str_not_str (vs : list json) (v : json) :
  In v vs -> spec.is_str v = false -> all_str vs = None.
Proof.
  induction vs as [| x vs IH]; [done |]. intros [-> | Hin] Hv.
  - by destruct v.
  - simpl. destruct x; try reflexivity. by rewrite (IH Hin Hv).
Qed.

Lemma extract_text_entry_extends (entry : json) (texts : list json) :
  exists more, extract_text_entry entry texts = ret (texts ++ more).
Proof.
  destruct entry as [| | | | | | d]; simpl; try (exists []; by rewrite app_nil_r).
  unfold dict_get, dict_get_default.
  destruct (dict_lookup d "text") as [t |]; simpl; [| exists []; by rewrite app_nil_r].
  destruct (truthy t); [by exists [t] | exists []; by rewrite app_nil_r].
Qed.

Lemma for_each_extends {A} (xs : list A) (step : A -> list json -> py (list json))
    (texts : list json) :
  (forall x acc, exists more, step x acc = ret (acc ++ more)) ->
  exists more, for_each xs step texts = ret (texts ++ more).
Proof.
  intros Hstep. revert texts. induction xs as [| x xs IH]; intros texts; simpl.
  - exists []. by rewrite app_nil_r.
  - destruct (Hstep x texts) as [m1 ->]. simpl.
    destruct (IH (texts ++ m1)) as [m2 ->]. exists (m1 ++ m2). by rewrite app_assoc.
Qed.

Lemma extract_messages_extends (json_content : json) (texts : list json) :
  (exists e, extract_messages json_content texts = raise e)
  \/ exists more, extract_messages json_content texts = ret (texts ++ more).
Proof.
  unfold extract_messages.
  destruct (result_of json_content) as [e | r]; [left; by exists e |]. cbn [bind].
  destruct (get r "messages") as [e | m]; [left; by exists e |]. cbn [bind].
  destruct (truthy m); [| right; exists []; by rewrite app_nil_r].
  destruct (getitem json_content "result") as [e | r']; [left; by exists e |]. cbn [bind].
  destruct (getitem r' "messages") as [e | m']; [left; by exists e |]. cbn [bind].
  destruct (iter m') as [e | l]; [left; by exists e |]. cbn [bind].
  right. apply for_each_extends, extract_text_entry_extends.
Qed.

Lemma extract_status_message_extends (json_content : json) (texts : list json) :
  (exists e, extract_status_message json_content texts = raise e)
  \/ exists more, extract_status_message json_content texts = ret (texts ++ more).
Proof.
  unfold extract_status_message.
  destruct (result_of json_content) as [e | r]; [left; by exists e |]. cbn [bind].
  destruct (get_default r "status" _) as [e | s]; [left; by exists e |]. cbn [bind].
  destruct (get_default s "message" _) as [e | m]; [left; by exists e |]. cbn [bind].
  destruct (get m "parts") as [e | p]; [left; by exists e |]. cbn [bind].
  destruct (truthy p); [| right; exists []; by rewrite app_nil_r].
  destruct (getitem json_content "result") as [e | r']; [left; by exists e |]. cbn [bind].
  destruct (getitem r' "status") as [e | s']; [left; by exists e |]. cbn [bind].
  destruct (getitem s' "message") as [e | m']; [left; by exists e |]. cbn [bind].
  destruct (getitem m' "parts") as [e | p']; [left; by exists e |]. cbn [bind].
  destruct (iter p') as [e | l]; [left; by exists e |]. cbn [bind].
  right. apply for_each_extends, extract_text_entry_extends.
Qed.

(** X16: a direct text of the result that is truthy but not a string (a
    number, a list, an object) is appended like any other; the join then
    fails, so the extraction raises on every such response. *)
Theorem non_string_direct_text_raises (d r : list (string * json)) (v : json) :
  dict_lookup d "result" = Some (JDict r) ->
  dict_lookup r "text" = Some v ->
  truthy v = true ->
  spec.is_str v = false ->
  exists e, extract dumps (JDict d) = raise e.
Proof.
  intros Hd Hr Hv Hns. unfold extract. cbn [keys bind ret].
  rewrite (result_of_present d r Hd). cbn [bind ret].
  destruct (extract_artifacts dumps (JDict d) []) as [e | texts]; [by exists e |].
  cbn [bind].
  assert (Hdirect : extract_direct_text (JDict d) texts = ret (texts ++ [v])).
  { unfold extract_direct_text.
    rewrite (result_of_present d r Hd), (getitem_result d r Hd), !bind_ret.
    unfold get, get_default, getitem, dict_get_default. rewrite Hr, !bind_ret.
    by rewrite Hv. }
  rewrite Hdirect. cbn [bind ret].
  destruct (extract_messages_extends (JDict d) (texts ++ [v])) as [[e ->] | [m1 ->]];
    [by exists e |]. cbn [bind ret].
  destruct (extract_status_message_extends (JDict d) ((texts ++ [v]) ++ m1))
    as [[e ->] | [m2 ->]]; [by exists e |]. cbn [bind ret].
  exists TypeError. unfold response_text, join_values.
  rewrite (all_str_not_str _ v); [| | exact Hns].
  - by destruct (((texts ++ [v]) ++ m1) ++ m2) eqn:Hl; [destruct texts | ].
  - apply in_or_app. left. apply in_or_app. left. apply in_or_app. right. by left.
Qed.

End ExtractionMore.

(** ** Sessions and events of [stream] *)

Section StreamMore.
Import Py agent.

Variable run_async : adk.Session -> string -> list adk.Event.

(** X17: [stream] looks the session up or creates it, once: afterwards
    the store holds, under the given id, the session that was there or a
    new one with an empty state; the runner is run on that session; no
    other session is touched; and a further call on that id changes the
    store no more. *)
Theorem stream_gets_or_creates_session (sessions : gmap string adk.Session)
    (query query' session_id : string) :
  let session :=
    default {| adk.session_id := session_id; adk.state := ∅ |} (sessions !! session_id) in
  let '(items, sessions') := stream run_async sessions query session_id in
  sessions' !! session_id = Some session
  /\ items = map stream_event (run_async session query)
  /\ (forall other, other <> session_id -> sessions' !! other = sessions !! other)
  /\ (stream run_async sessions' query' session_id).2 = sessions'.
Proof.
  unfold stream. destruct (sessions !! session_id) as [s |] eqn:Hs; simpl.
  - repeat split; [done | by rewrite Hs].
  - rewrite lookup_insert_eq. repeat split.
    intros other Hne. by rewrite lookup_insert_ne.
Qed.

(** X18: [stream] yields one item per event of the runner, in order, and
    an item is marked complete exactly when its event is final: there are
    as many complete items as final events, none when the runner ends
    without a final event and several when it emits several. *)
Theorem stream_items_follow_events (sessions : gmap string adk.Session)
    (query session_id : string) :
  let session :=
    default {| adk.session_id := session_id; adk.state := ∅ |} (sessions !! session_id) in
  let events := run_async session query in
  let items := (stream run_async sessions query session_id).1 in
  List.length items = List.length events
  /\ map (fun item => getitem item "is_task_complete") items
     = map (fun event => ret (JBool (adk.is_final_response event))) events.
Proof.
  cbv zeta.
  assert (Hitems : (stream run_async sessions query session_id).1
                   = map stream_event
                       (run_async (default {| adk.session_id := session_id; adk.state := ∅ |}
                                     (sessions !! session_id)) query)).
  { unfold stream. by destruct (sessions !! session_id). }
  rewrite Hitems. generalize (run_async (default {| adk.session_id := session_id;
                                                    adk.state := ∅ |}
                                           (sessions !! session_id)) query).
  intros events. split; [by rewrite length_map |].
  induction events as [| e events IH]; [reflexivity |]. simpl. rewrite IH. f_equal.
  unfold stream_event. by destruct (adk.is_final_response e).
Qed.

(** X19: the content of a complete item is empty exactly when the final
    event has no content, no parts, or a first part without text. *)
Theorem final_content_empty_iff (event : adk.Event) :
  adk.is_final_response event = true ->
  getitem (stream_event event) "content" = ret (JStr "")
  <-> ~ exists c p0 rest t,
          adk.content event = Some c /\ adk.parts c = Some (p0 :: rest)
          /\ adk.text p0 = Some t /\ t <> "".
Proof.
  intros Hfinal.
  assert (Hcontent : getitem (stream_event event) "content"
                     = ret (JStr (if first_part_has_text (adk.content event)
                                  then join nl (map text_of
                                         (List.filter has_text (parts_of (adk.content event))))
                                  else ""))).
  { unfold stream_event. by rewrite Hfinal. }
  rewrite Hcontent. unfold first_part_has_text, parts_of.
  destruct (adk.content event) as [c |].
  2: { split; [| done]. intros _ (c & p0 & rest & t & H & _). discriminate. }
  destruct (adk.parts c) as [[| p0 rest] |] eqn:Hp.
  1, 3: split; [| done]; intros _ (c' & p0' & rest' & t & [= <-] & H & _); congruence.
  cbn [default List.filter].
  destruct (has_text p0) eqn:Hh.
  - pose proof Hh as Hh'. unfold has_text in Hh.
    destruct (adk.text p0) as [t |] eqn:Ht; [| done].
    destruct (String.eqb_spec t "") as [-> | Hne]; [done |].
    split.
    + intros H. exfalso. injection H as H. revert H. cbn [List.filter]. rewrite Hh'.
      cbn [map]. unfold text_of at 1. rewrite Ht. by apply join_cons_nonempty.
    + intros H. exfalso. apply H. by exists c, p0, rest, t.
  - split; [| done]. intros _ (c' & p0' & rest' & t & [= <-] & H & Ht & Hne).
    rewrite Hp in H. injection H as <- <-. unfold has_text in Hh. rewrite Ht in Hh.
    by destruct (String.eqb_spec t "").
Qed.

End StreamMore.

(** ** Discovery of the remote agents *)

Section Dicts.
Import Py agent.

Lemma item_assign_same {V} (d : list (string * V)) (k : string) (v : V) :
  item (assign d k v) k = Some v.
Proof.
  induction d as [| [k' v'] d IH]; simpl.
  - by rewrite String.eqb_refl.
  - destruct (String.eqb_spec k' k) as [-> | Hne]; simpl.
    + by rewrite String.eqb_refl.
    + destruct (String.eqb_spec k' k); [done | exact IH].
Qed.

Lemma item_assign_other {V} (d : list (string * V)) (k k' : string) (v : V) :
  k <> k' -> item (assign d k v) k' = item d k'.
Proof.
  intros Hne. induction d as [| [k0 v0] d IH]; simpl.
  - destruct (String.eqb_spec k k'); [done | reflexivity].
  - destruct (String.eqb_spec k0 k) as [-> | Hk]; simpl.
    + destruct (String.eqb_spec k k'); [done | reflexivity].
    + destruct (String.eqb_spec k0 k'); [reflexivity | exact IH].
Qed.

Lemma assign_keys {V} (d : list (string * V)) (k : string) (v : V) :
  map fst (assign d k v) = if has_key d k then map fst d else map fst d ++ [k].
Proof.
  induction d as [| [k' v'] d IH]; simpl; [reflexivity |].
  destruct (String.eqb_spec k' k) as [-> | Hne]; simpl; [reflexivity |].
  rewrite IH. by destruct (has_key d k).
Qed.

Lemma assign_all_some {V} (d : list (string * option V)) (k : string) (v : V) :
  Forall (fun kv => is_Some (snd kv)) d ->
  Forall (fun kv => is_Some (snd kv)) (assign d k (Some v)).
Proof.
  induction 1 as [| [k' v'] d Hx Hd IH]; simpl.
  - constructor; [by eexists | constructor].
  - destruct (String.eqb k' k); constructor; done.
Qed.

Lemma has_key_same_keys {V W} (d : list (string * V)) (d' : list (string * W)) (k : string) :
  map fst d = map fst d' -> has_key d k = has_key d' k.
Proof.
  revert d'. induction d as [| [k1 v1] d IH]; intros [| [k2 v2] d'] H; try done.
  simpl in *. injection H as -> H. by rewrite (IH d' H).
Qed.

Lemma assign_length {V} (d : list (string * V)) (k : string) (v : V) :
  List.length (assign d k v) <= S (List.length d).
Proof.
  induction d as [| [k' v'] d IH]; simpl; [lia |].
  destruct (String.eqb k' k); simpl; lia.
Qed.

Lemma has_key_iff_In {V} (d : list (string * V)) (k : string) :
  has_key d k = true <-> In k (map fst d).
Proof.
  induction d as [| [k' v] d IH]; simpl.
  - split; [discriminate | intros []].
  - rewrite orb_true_iff, IH, String.eqb_eq. reflexivity.
Qed.

End Dicts.

Section DiscoveryProps.
Import Py agent.

Variable get_agent_card : string -> py a2a.AgentCard.
Variable RemoteAgentConnections : a2a.AgentCard -> string -> py a2a.RemoteAgentConnections.
Variable json_dumps : json -> string.

(** What one address does to the host: nothing, or one assignment under
    the name of the card in both dicts. *)
Lemma probe_cases (self : HostAgent) (address : string) :
  probe get_agent_card RemoteAgentConnections self address = self
  \/ exists card conn,
       get_agent_card address = ret card
       /\ RemoteAgentConnections card address = ret conn
       /\ probe get_agent_card RemoteAgentConnections self address
          = {| remote_agent_connections :=
                 assign (remote_agent_connections self) (a2a.name card) (Some conn);
               cards := assign (cards self) (a2a.name card) card;
               agents := agents self |}.
Proof.
  unfold probe. destruct (get_agent_card address) as [e | card] eqn:Hc; [by left |].
  cbn [bind]. destruct (RemoteAgentConnections card address) as [e | conn] eqn:Hr; [by left |].
  right. by exists card, conn.
Qed.

Lemma probe_keeps_directory_ok (self : HostAgent) (address : string) :
  spec.directory_ok self -> spec.directory_ok (probe get_agent_card RemoteAgentConnections self address).
Proof.
  intros (Hkeys & Hnodup & Hsome & Hname).
  destruct (probe_cases self address) as [-> | (card & conn & _ & _ & ->)]; [done |].
  unfold spec.directory_ok. cbn [remote_agent_connections cards].
  rewrite !assign_keys, <- (has_key_same_keys _ (cards self) _ Hkeys), <- Hkeys.
  repeat split.
  - destruct (has_key (remote_agent_connections self) (a2a.name card)) eqn:Hk; [done |].
    apply NoDup_app. repeat split; [done | | apply NoDup_singleton].
    intros x Hx Hx'. apply list_elem_of_In in Hx, Hx'. destruct Hx' as [<- | []].
    apply has_key_iff_In in Hx. congruence.
  - by apply assign_all_some.
  - intros k c. destruct (String.eqb_spec (a2a.name card) k) as [<- | Hne].
    + rewrite item_assign_same. by intros [= <-].
    + rewrite item_assign_other by done. apply Hname.
Qed.

Lemma fold_probe_directory_ok (addresses : list string) (self : HostAgent) :
  spec.directory_ok self ->
  spec.directory_ok (fold_left (probe get_agent_card RemoteAgentConnections) addresses self).
Proof.
  revert self. induction addresses as [| a addresses IH]; intros self H; [done |].
  simpl. apply IH. by apply probe_keeps_directory_ok.
Qed.

Lemma fold_probe_length (addresses : list string) (self : HostAgent) :
  List.length (remote_agent_connections
                 (fold_left (probe get_agent_card RemoteAgentConnections) addresses self))
  <= List.length (remote_agent_connections self) + List.length addresses.
Proof.
  revert self. induction addresses as [| a addresses IH]; intros self; simpl; [lia |].
  etrans; [apply IH |].
  destruct (probe_cases self a) as [-> | (card & conn & _ & _ & ->)]; [lia |].
  cbn [remote_agent_connections].
  pose proof (assign_length (remote_agent_connections self) (a2a.name card) (Some conn)). lia.
Qed.

Lemma create_directory_ok (addresses : list string) :
  spec.directory_ok (create get_agent_card RemoteAgentConnections json_dumps addresses).
Proof.
  unfold create, _async_init_components.
  assert (H0 : spec.directory_ok __init__).
  { repeat split; [constructor | constructor | done]. }
  exact (fold_probe_directory_ok addresses __init__ H0).
Qed.

(** X20: whatever the endpoints answer, the host built by [create] has the
    same keys, in the same order, in its connections and its cards; no key
    occurs twice; every connection is a real one; every card is stored
    under its own name; and there are at most as many agents as
    addresses. *)
Theorem created_directory_is_consistent (addresses : list string) :
  let host := create get_agent_card RemoteAgentConnections json_dumps addresses in
  map fst (remote_agent_connections host) = map fst (cards host)
  /\ NoDup (map fst (remote_agent_connections host))
  /\ Forall (fun kv => is_Some (snd kv)) (remote_agent_connections host)
  /\ (forall k card, item (cards host) k = Some card -> a2a.name card = k)
  /\ List.length (remote_agent_connections host) <= List.length addresses.
Proof.
  cbv zeta. destruct (create_directory_ok addresses) as (H1 & H2 & H3 & H4).
  repeat split; try done.
  apply (fold_probe_length addresses __init__).
Qed.

Lemma fold_probe_unchanged (addresses : list string) (self : HostAgent) :
  Forall (fun a => probe get_agent_card RemoteAgentConnections self a = self) addresses ->
  fold_left (probe get_agent_card RemoteAgentConnections) addresses self = self.
Proof.
  induction 1 as [| a addresses Ha _ IH]; [done |]. simpl. by rewrite Ha.
Qed.

Lemma create_without_registration (addresses : list string) :
  Forall (fun a => (exists e, get_agent_card a = raise e)
                   \/ (exists card e, get_agent_card a = ret card
                                      /\ RemoteAgentConnections card a = raise e))
         addresses ->
  create get_agent_card RemoteAgentConnections json_dumps addresses
  = {| remote_agent_connections := []; cards := []; agents := "No agents found" |}.
Proof.
  intros H. unfold create, _async_init_components.
  rewrite fold_probe_unchanged; [reflexivity |].
  eapply Forall_impl; [exact H |]. intros a Ha. unfold probe. simpl in Ha.
  destruct Ha as [[e ->] | (card & e & -> & Hc)]; [reflexivity |].
  cbn [bind ret]. unfold raise in Hc. by rewrite Hc.
Qed.

(** X21: when no endpoint can be registered (its card cannot be fetched,
    or its connection cannot be built), [create] still returns a host: its
    directory is empty and its summary is "No agents found". *)
Theorem unreachable_endpoints_give_empty_directory (addresses : list string) :
  Forall (fun a => (exists e, get_agent_card a = raise e)
                   \/ (exists card e, get_agent_card a = ret card
                                      /\ RemoteAgentConnections card a = raise e))
         addresses ->
  create get_agent_card RemoteAgentConnections json_dumps addresses
  = {| remote_agent_connections := []; cards := []; agents := "No agents found" |}.
Proof. apply create_without_registration. Qed.

Lemma fold_probe_item (post : list string) (self : HostAgent) (k : string) :
  Forall (fun a => forall card conn,
            get_agent_card a = ret card -> RemoteAgentConnections card a = ret conn ->
            a2a.name card <> k) post ->
  let self' := fold_left (probe get_agent_card RemoteAgentConnections) post self in
  item (remote_agent_connections self') k = item (remote_agent_connections self) k
  /\ item (cards self') k = item (cards self) k.
Proof.
  intros H. revert self. induction H as [| a post Ha _ IH]; intros self; [done |].
  simpl. destruct (IH (probe get_agent_card RemoteAgentConnections self a)) as [-> ->].
  destruct (probe_cases self a) as [-> | (card & conn & Hc & Hr & ->)]; [done |].
  cbn [remote_agent_connections cards]. pose proof (Ha card conn Hc Hr).
  by rewrite !item_assign_other.
Qed.

(** X22: an endpoint whose card is fetched and whose connection is built
    is registered under the name of its card; when several endpoints
    report one name, the last of them in the list holds the entry. *)
Theorem last_reachable_endpoint_is_registered (before after : list string) (address : string)
    (card : a2a.AgentCard) (conn : a2a.RemoteAgentConnections) :
  get_agent_card address = ret card ->
  RemoteAgentConnections card address = ret conn ->
  Forall (fun a => forall card' conn',
            get_agent_card a = ret card' -> RemoteAgentConnections card' a = ret conn' ->
            a2a.name card' <> a2a.name card) after ->
  let host := create get_agent_card RemoteAgentConnections json_dumps
                (before ++ address :: after) in
  item (remote_agent_connections host) (a2a.name card) = Some (Some conn)
  /\ item (cards host) (a2a.name card) = Some card.
Proof.
  intros Hc Hr Hafter. cbv zeta. unfold create, _async_init_components.
  cbn [remote_agent_connections cards]. rewrite fold_left_app. cbn [fold_left].
  destruct (fold_probe_item after
              (probe get_agent_card RemoteAgentConnections
                 (fold_left (probe get_agent_card RemoteAgentConnections) before __init__)
                 address)
              (a2a.name card) Hafter) as [-> ->].
  unfold probe at 1 3. unfold ret in Hc, Hr. rewrite Hc. cbn [bind]. rewrite Hr.
  cbn [bind ret remote_agent_connections cards]. by rewrite !item_assign_same.
Qed.

End DiscoveryProps.

(** ** Delegation on a discovered directory *)

Section DiscoveredDelegation.
Import Py agent.

Variable get_agent_card : string -> py a2a.AgentCard.
Variable RemoteAgentConnections : a2a.AgentCard -> string -> py a2a.RemoteAgentConnections.
Variable json_dumps : json -> string.
Variable lower : string -> string.
Variable exn_str : exn -> string.
Variable uuid4 : nat -> string.
Variable model_validate : json -> py json.
Variable dumps : json -> string.

Lemma item_all_some {V} (d : list (string * option V)) (k : string) (entry : option V) :
  Forall (fun kv => is_Some (snd kv)) d -> item d k = Some entry -> is_Some entry.
Proof.
  induction 1 as [| [k' v'] d Hx _ IH]; simpl; [done |].
  destruct (String.eqb k' k); [by intros [= <-] | exact IH].
Qed.

(** X23: on a directory built by [create], a resolved name always has a
    real connection: the call goes on to the delegation, and the guard
    "Client not available" never answers. *)
Theorem discovered_agent_is_available (addresses : list string) (agent_name task : string)
    (state : gmap string json) (w : world) (resolved : string) :
  let conns :=
    remote_agent_connections (create get_agent_card RemoteAgentConnections json_dumps addresses) in
  resolve lower conns agent_name = inr resolved ->
  exists client,
    item conns resolved = Some (Some client)
    /\ send_message lower exn_str uuid4 model_validate dumps conns agent_name task state w
       = delegate exn_str uuid4 model_validate dumps client resolved task state w.
Proof.
  cbv zeta. intros Hr.
  destruct (create_directory_ok get_agent_card RemoteAgentConnections json_dumps addresses)
    as (_ & _ & Hsome & _).
  destruct (resolve_key lower _ _ _ Hr) as [entry Hitem].
  destruct (item_all_some _ _ _ Hsome Hitem) as [client ->].
  exists client. split; [exact Hitem |]. unfold send_message. by rewrite Hr, Hitem.
Qed.

(** X24: when no endpoint could be registered, every call of
    [send_message] returns the not-found error with an empty list of
    agents; no identifier is drawn and nothing is sent. *)
Theorem no_agent_means_not_found (addresses : list string) (agent_name task : string)
    (state : gmap string json) (w : world) :
  Forall (fun a => (exists e, get_agent_card a = raise e)
                   \/ (exists card e, get_agent_card a = ret card
                                      /\ RemoteAgentConnections card a = raise e))
         addresses ->
  send_message lower exn_str uuid4 model_validate dumps
    (remote_agent_connections (create get_agent_card RemoteAgentConnections json_dumps addresses))
    agent_name task state w
  = (ret ("Error: Agent '" +:+ agent_name +:+ "' not found. Available agents: "), state, w).
Proof.
  intros H.
  by rewrite (create_without_registration get_agent_card RemoteAgentConnections
                json_dumps addresses H).
Qed.

End DiscoveredDelegation.

(** ** The security alert *)

Section SecurityAlert.
Import Py orchestration_tools.

(** X25: for a non-empty list of issues, all strings, the alert is the
    header, the line of the issues separated by commas, and the footer;
    every issue occurs in it. *)
Theorem security_alert_names_every_issue (issues : list string) (issue : string) :
  In issue issues ->
  exists alert,
    create_security_alert (JList (map JStr issues)) = ret alert
    /\ alert = (alert_header
                +:+ (nl +:+ "Issues detected: " +:+ join ", " issues +:+ nl))
               +:+ alert_footer
    /\ contains alert issue = true.
Proof.
  intros Hin. unfold create_security_alert.
  assert (Ht : truthy (JList (map JStr issues)) = true) by (by destruct issues).
  rewrite Ht. cbn [iter bind ret]. unfold join_values. rewrite all_str_JStr. cbn [bind ret].
  eexists. split; [reflexivity |]. split; [reflexivity |].
  apply contains_spec. destruct (join_contains ", " issue issues Hin) as (before & after & ->).
  exists (alert_header +:+ nl +:+ "Issues detected: " +:+ before), (after +:+ nl +:+ alert_footer).
  by rewrite !string_app_assoc.
Qed.

(** For every falsy argument ([None], an empty list, an empty
    string, zero) the alert is the header followed by the footer, without
    a line of issues. *)
Theorem security_alert_without_issues (detected_issues : json) :
  truthy detected_issues = false ->
  create_security_alert detected_issues = ret (alert_header +:+ alert_footer).
Proof. intros H. unfold create_security_alert. by rewrite H. Qed.

(** X26: a list of issues with an element that is not a string makes the
    join fail: the function raises [TypeError], which nothing in it
    catches. *)
Theorem security_alert_raises_on_non_string (items : list json) :
  all_str items = None ->
  create_security_alert (JList items) = raise TypeError.
Proof.
  intros H. unfold create_security_alert.
  assert (Ht : truthy (JList items) = true) by (by destruct items).
  rewrite Ht. cbn [iter bind ret]. unfold join_values. by rewrite H.
Qed.

Lemma string_app_cons_l (c : ascii) (a b : string) : String c a +:+ b = String c (a +:+ b).
Proof. reflexivity. Qed.

(** The pieces of [code_points] put together give the string back, and
    each piece is one byte followed by continuation bytes only. *)
Lemma code_points_spec (s : string) :
  fold_right String.append "" (code_points s) = s
  /\ Forall (fun p => exists c tail,
                p = String c tail /\ spec.all_continuation tail = true) (code_points s).
Proof.
  induction s as [| c rest [Hcat Hpieces]]; [by split; [| constructor] |].
  cbn [code_points]. destruct (code_points rest) as [| p ps] eqn:Hcp.
  - cbn in Hcat. subst rest. split; [reflexivity |].
    constructor; [by exists c, "" | constructor].
  - cbn [fold_right] in Hcat. inversion Hpieces as [| ? ? (c' & tail & -> & Htail) Hps]; subst.
    destruct (starts_with_continuation _) eqn:Hstart.
    + split; [cbn [fold_right]; by rewrite string_app_cons_l |].
      constructor; [| exact Hps]. exists c, (String c' tail). split; [reflexivity |].
      rewrite string_app_cons_l in Hstart. cbn in Hstart. cbn [spec.all_continuation].
      by rewrite Hstart, Htail.
    + split; [reflexivity |].
      constructor; [by exists c, "" |]. constructor; [by exists c', tail | exact Hps].
Qed.

(** X27: a non-empty plain string passed instead of a list is iterated
    character by character: the line of issues lists its code points
    separated by commas; the code points put together are the string, and
    each is one byte followed by its continuation bytes. *)
Theorem security_alert_splits_a_string (s : string) :
  s <> "" ->
  create_security_alert (JStr s)
  = ret ((alert_header
          +:+ (nl +:+ "Issues detected: " +:+ join ", " (code_points s) +:+ nl))
         +:+ alert_footer)
  /\ fold_right String.append "" (code_points s) = s
  /\ Forall (fun p => exists c tail,
                 p = String c tail /\ spec.all_continuation tail = true) (code_points s).
Proof.
  intros Hs. split; [| apply code_points_spec]. unfold create_security_alert.
  assert (Ht : truthy (JStr s) = true) by (by destruct s).
  rewrite Ht. cbn [iter bind ret]. unfold join_values, chars. by rewrite all_str_JStr.
Qed.

End SecurityAlert.

(** ** The further properties at concrete inputs *)

Section MoreInstances.
Import Py.

Lemma second_verification_reuses_client :
  (verification_agent.verify_response example.getenv example.unreachable_Client
     example.loads_verdict "q2" "a2" "invoices"
     (verification_agent.verify_response example.getenv example.answering_Client
        example.loads_verdict "q" "a" "imports" None).2).2
  = Some example.fixed_client.
Proof.
  exact (proj2 (proj2 (client_is_built_once example.getenv example.answering_Client
                         example.loads_verdict "q" "a" "imports" "q2" "a2" "invoices"
                         example.fixed_client example.unreachable_Client
                         example.unreachable_Client eq_refl))).
Defined.

Lemma unreachable_backend_is_not_cached :
  verification_agent.verify_response example.getenv example.unreachable_Client
    example.loads_verdict "q" "a" "imports" None
  = (ret verification_agent.safe_defaults, None).
Proof.
  exact (failed_client_is_not_cached example.getenv example.unreachable_Client
           example.loads_verdict "q" "a" "imports" (External "connection refused") eq_refl).
Defined.

Lemma list_verdict_fails_open :
  (verification_agent.verify_response example.getenv example.answering_Client
     example.loads_list "q" "a" "imports" None).1
  = ret verification_agent.safe_defaults.
Proof.
  apply (non_object_verdict_fails_open example.getenv example.answering_Client
           example.loads_list "q" "a" "imports" None (Some "verdict") (JList [])
           eq_refl eq_refl).
  intros d H. discriminate H.
Defined.

Lemma explanation_passes_through :
  exists verdict,
    (verification_agent.verify_response example.getenv example.answering_Client
       example.loads_verdict "q" "a" "imports" None).1
    = ret (JDict [ ("status", JStr "success"); ("verification", JDict verdict) ])
    /\ dict_lookup verdict "explanation" = Some (JStr "On topic").
Proof.
  destruct (verdict_fields_pass_through example.getenv example.answering_Client
              example.loads_verdict "q" "a" "imports" None (Some "verdict") _
              eq_refl eq_refl) as (verdict & Hv & Hk).
  exists verdict. split; [exact Hv |].
  rewrite Hk; [reflexivity | | |]; intros H; discriminate H.
Defined.

Lemma check_mark_means_relevant :
  exists verdict,
    (verification_agent.verify_response example.getenv example.answering_Client
       example.loads_verdict "q" "a" "imports" None).1
    = ret (JDict [ ("status", JStr "success"); ("verification", JDict verdict) ])
    /\ (dict_lookup verdict "emoji" = Some (JStr "✅")
        <-> dict_lookup verdict "status" = Some (JStr "relevant")).
Proof.
  destruct (emoji_follows_verdict example.getenv example.answering_Client
              example.loads_verdict "q" "a" "imports" None (Some "verdict") _
              eq_refl eq_refl) as (verdict & Hv & H1 & _).
  exists verdict. split; [exact Hv | exact H1].
Defined.

Lemma missing_is_safe_gives_risk_without_alert :
  exists verdict,
    (verification_agent.verify_response example.getenv example.answering_Client
       example.loads_partial "q" "a" "imports" None).1
    = ret (JDict [ ("status", JStr "success"); ("verification", JDict verdict) ])
    /\ dict_lookup verdict "security_alert" = Some (JBool false)
    /\ dict_lookup verdict "status" = Some (JStr "security_risk")
    /\ dict_lookup verdict "emoji" = Some (JStr "🚨").
Proof.
  destruct (security_alert_and_status example.getenv example.answering_Client
              example.loads_partial "q" "a" "imports" None (Some "verdict") _
              eq_refl eq_refl) as (verdict & Hv & _ & Habsent).
  exists verdict. split; [exact Hv | exact (Habsent eq_refl)].
Defined.

Lemma empty_name_goes_to_imports :
  agent.resolve example.lower example.directory "" = inr "Imports_Agent".
Proof.
  apply (empty_name_takes_first_agent example.lower "Imports_Agent"
           (Some example.answering_agent)
           [ ("Invoices_Agent", Some example.unreachable_agent) ] eq_refl).
  intros [H | [H | []]]; discriminate H.
Defined.

Lemma upper_case_name_resolves_alike :
  agent.resolve example.lower example.directory "INVOICES" = inr "Invoices_Agent"
  <-> agent.resolve example.lower example.directory "invoices" = inr "Invoices_Agent".
Proof.
  assert (H1 : ~ In "INVOICES" (map fst example.directory))
    by (intros [H | [H | []]]; discriminate H).
  assert (H2 : ~ In "invoices" (map fst example.directory))
    by (intros [H | [H | []]]; discriminate H).
  exact (proj1 (partial_match_ignores_case example.lower example.directory
                  "INVOICES" "invoices" eq_refl H1 H2) "Invoices_Agent").
Defined.

Lemma populated_state_is_sent :
  agent.delegations
    (agent.delegate example.exn_str example.uuid4 example.model_validate example.dumps
       example.answering_agent "Imports_Agent" "q" example.populated_state
       example.fresh_world).2
  = [ ("Imports_Agent",
       {| a2a.id := "uuid-2";
          a2a.params := agent.payload "q" "uuid-2" (JStr "t-1") (JStr "c-1") |}) ].
Proof.
  assert (H1 : example.populated_state !! "task_id" = Some (JStr "t-1"))
    by (vm_compute; reflexivity).
  assert (H2 : example.populated_state !! "context_id" = Some (JStr "c-1"))
    by (vm_compute; reflexivity).
  pose proof (stored_identifiers_are_sent example.exn_str example.uuid4
                example.model_validate example.dumps
                example.answering_agent "Imports_Agent" "q" example.populated_state
                example.fresh_world (JStr "t-1") (JStr "c-1") H1 H2) as H.
  destruct (agent.delegate example.exn_str example.uuid4 example.model_validate
              example.dumps example.answering_agent "Imports_Agent" "q"
              example.populated_state example.fresh_world) as [[r st] w'].
  exact (proj2 H).
Defined.

(** With a validation that rejects the payload, nothing is sent. *)
Example rejected_payload_is_not_sent :
  agent.delegate example.exn_str example.uuid4 example.model_validate_rejects example.dumps
    example.answering_agent "Imports_Agent" "q" example.populated_state example.fresh_world
  = (ret "Error communicating with Imports_Agent: ValidationError",
     example.populated_state,
     {| agent.uuid_calls := 3; agent.delegations := [] |}).
Proof. reflexivity. Qed.

Lemma number_text_is_reported_as_error :
  (example.send_message [ ("Numbers_Agent", Some example.number_agent) ]
     "Numbers_Agent" "how many" ∅ example.fresh_world).1.1
  = ret "Error communicating with Numbers_Agent: TypeError".
Proof.
  exact (failed_extraction_returns_error example.lower example.exn_str example.uuid4
           example.model_validate example.dumps
           [ ("Numbers_Agent", Some example.number_agent) ] "Numbers_Agent" "how many" ∅
           example.fresh_world "Numbers_Agent" example.number_agent
           (agent.payload "how many" (example.uuid4 2) (JStr (example.uuid4 0))
              (JStr (example.uuid4 1)))
           example.number_text_response TypeError eq_refl eq_refl eq_refl eq_refl eq_refl).
Defined.

Lemma certificate_text_is_not_empty :
  exists text,
    agent.extract example.dumps example.certificate_response = ret text /\ text <> "".
Proof.
  apply (extracted_text_is_not_empty example.dumps example.certificate_response eq_refl).
  intros artifact [<- | []] [H | []]. discriminate H.
Defined.

Lemma direct_text_is_extracted :
  exists text,
    agent.extract example.dumps example.a_then_b_response = ret text
    /\ contains text "B" = true.
Proof.
  apply (every_fragment_is_extracted example.dumps example.a_then_b_response "B" eq_refl).
  right. left. reflexivity.
Defined.

Lemma history_field_is_ignored :
  agent.extract example.dumps
    (JDict [ ("result", JDict [ ("text", JStr "B"); ("history", JList [ JStr "old" ]) ]) ])
  = agent.extract example.dumps (JDict [ ("result", JDict [ ("text", JStr "B") ]) ]).
Proof.
  apply (proj2 (unrecognised_fields_are_ignored example.dumps
                  [ ("result", JDict [ ("text", JStr "B") ]) ] [ ("text", JStr "B") ]
                  "history" (JList [ JStr "old" ]) eq_refl));
    intros H; discriminate H.
Defined.

Lemma number_text_raises :
  exists e, agent.extract example.dumps example.number_text_response = raise e.
Proof.
  exact (non_string_direct_text_raises example.dumps
           [ ("result", JDict [ ("text", JInt 5) ]) ] [ ("text", JInt 5) ] (JInt 5)
           eq_refl eq_refl eq_refl eq_refl).
Defined.

Lemma late_text_event_has_empty_content :
  getitem (agent.stream_event example.late_text_event) "content" = ret (JStr "").
Proof.
  apply (proj2 (final_content_empty_iff example.late_text_event eq_refl)).
  intros (c & p0 & rest & t & Hc & Hp & Ht & Hne).
  injection Hc as <-. injection Hp as <- _. discriminate Ht.
Defined.

Lemma unknown_addresses_give_no_agent :
  example.create [ "http://10.0.0.1"; "http://10.0.0.2" ]
  = {| agent.remote_agent_connections := []; agent.cards := [];
       agent.agents := "No agents found" |}.
Proof.
  apply (unreachable_endpoints_give_empty_directory example.get_agent_card example.connect
           example.dumps).
  constructor; [left; eexists; reflexivity |].
  constructor; [left; eexists; reflexivity | constructor].
Defined.

Lemma invoices_endpoint_is_registered :
  agent.item (agent.remote_agent_connections
                (example.create [ "http://localhost:8005"; "http://localhost:8006";
                                  "http://10.0.0.1" ]))
    "Invoices_Agent" = Some (Some example.answering_agent)
  /\ agent.item (agent.cards
                   (example.create [ "http://localhost:8005"; "http://localhost:8006";
                                     "http://10.0.0.1" ]))
       "Invoices_Agent" = Some example.invoices_card.
Proof.
  apply (last_reachable_endpoint_is_registered example.get_agent_card example.connect
           example.dumps [ "http://localhost:8005" ] [ "http://10.0.0.1" ]
           "http://localhost:8006" example.invoices_card example.answering_agent
           eq_refl eq_refl).
  constructor; [| constructor]. intros card' conn' H. discriminate H.
Defined.

Lemma discovered_invoices_agent_is_available :
  exists client,
    agent.item (agent.remote_agent_connections
                  (example.create [ "http://localhost:8005"; "http://localhost:8006" ]))
      "Invoices_Agent" = Some (Some client)
    /\ example.send_message
         (agent.remote_agent_connections
            (example.create [ "http://localhost:8005"; "http://localhost:8006" ]))
         "invoices" "total of invoice 12" ∅ example.fresh_world
       = agent.delegate example.exn_str example.uuid4 example.model_validate example.dumps
           client "Invoices_Agent" "total of invoice 12" ∅ example.fresh_world.
Proof.
  exact (discovered_agent_is_available example.get_agent_card example.connect example.dumps
           example.lower example.exn_str example.uuid4 example.model_validate example.dumps
           [ "http://localhost:8005"; "http://localhost:8006" ] "invoices"
           "total of invoice 12" ∅ example.fresh_world "Invoices_Agent" eq_refl).
Defined.

Lemma no_endpoint_no_delegation :
  example.send_message (agent.remote_agent_connections (example.create [ "http://10.0.0.1" ]))
    "Imports_Agent" "what documents do I need" ∅ example.fresh_world
  = (ret "Error: Agent 'Imports_Agent' not found. Available agents: ", ∅,
     example.fresh_world).
Proof.
  apply (no_agent_means_not_found example.get_agent_card example.connect example.dumps
           example.lower example.exn_str example.uuid4 example.model_validate example.dumps
           [ "http://10.0.0.1" ] "Imports_Agent" "what documents do I need" ∅
           example.fresh_world).
  constructor; [left; eexists; reflexivity | constructor].
Defined.

Lemma fraud_is_named_in_the_alert :
  exists alert,
    orchestration_tools.create_security_alert (JList [ JStr "fraud"; JStr "phishing" ])
    = ret alert
    /\ contains alert "fraud" = true.
Proof.
  destruct (security_alert_names_every_issue [ "fraud"; "phishing" ] "fraud"
              (or_introl eq_refl)) as (alert & H1 & _ & H3).
  exists alert. split; [exact H1 | exact H3].
Defined.

Lemma default_alert_has_no_issue_line :
  orchestration_tools.create_security_alert JNull
  = ret (orchestration_tools.alert_header +:+ orchestration_tools.alert_footer).
Proof. exact (security_alert_without_issues JNull eq_refl). Defined.

Lemma numeric_issue_raises :
  orchestration_tools.create_security_alert (JList [ JStr "fraud"; JInt 3 ])
  = raise TypeError.
Proof. exact (security_alert_raises_on_non_string [ JStr "fraud"; JInt 3 ] eq_refl). Defined.

Lemma string_issue_is_split :
  orchestration_tools.create_security_alert (JStr "ñu")
  = ret ((orchestration_tools.alert_header
          +:+ (nl +:+ "Issues detected: ñ, u" +:+ nl))
         +:+ orchestration_tools.alert_footer).
Proof.
  assert (H : "ñu" <> "") by (intros H; discriminate H).
  exact (proj1 (security_alert_splits_a_string "ñu" H)).
Defined.

End MoreInstances.
